(** * coinflip / rngtest: stores, results transactions and result aggregation

    A shallow embedding of
      - [src/rngtest/store.py]: the store life cycle ([init_store],
        [get_data], [rm_tree], [drop], [ls_stores]) and the results
        transaction [open_results];
      - [src/coinflip/_randtests/common/result.py]: [TestResult] and
        [MultiTestResult] with its [lru_cache]d views.

    Python exceptions are values of [exn]; code that touches the file
    system or the clock runs in a state-and-exception monad [M] over a
    [world]; the cached properties run over a heap of mutable objects. *)

From Stdlib Require Import QArith Qcanon Ascii.
From stdpp Require Import base option list strings numbers gmap.

Local Open Scope string_scope.
Local Open Scope list_scope.
Set Warnings "-register-all".

(* ===================================================================== *)
(** * Part I: definitions *)
(* ===================================================================== *)

(** ** Exceptions and outcomes *)

(** The exception classes the modelled code raises or catches.
    [UserError n] stands for whatever exception a caller's block raises. *)
Inductive exn : Set :=
  | OSError              (* any other OS failure: ENOTEMPTY, EBUSY *)
  | FileNotFoundError
  | FileExistsError
  | NotADirectoryError
  | IsADirectoryError
  | EOFError
  | StopIteration
  | StoreExistsError     (* class StoreExistsError(FileExistsError) *)
  | NameConflictError    (* class NameConflictError(FileExistsError) *)
  | StoreNotFoundError   (* class StoreNotFoundError(FileNotFoundError) *)
  | DataNotFoundError    (* class DataNotFoundError(LookupError) *)
  | UserError (n : nat).

#[global] Instance exn_eq_dec : EqDecision exn.
Proof. solve_decision. Defined.

(** [isinstance e cls]: does an [except cls] clause catch [e]? *)
Definition isinstance (e cls : exn) : bool :=
  match cls, e with
  | OSError, (OSError | FileNotFoundError | FileExistsError
             | NotADirectoryError | IsADirectoryError | StoreExistsError
             | NameConflictError | StoreNotFoundError) => true
  | FileExistsError, (FileExistsError | StoreExistsError | NameConflictError) => true
  | FileNotFoundError, (FileNotFoundError | StoreNotFoundError) => true
  | _, _ => bool_decide (e = cls)
  end.

(** How a call ends: it returns, it raises, or the model's recursion
    budget ran out (only [rm_tree] recurses without a bound of its own). *)
Inductive outcome (A : Type) : Type :=
  | Return (a : A)
  | Raise (e : exn)
  | OutOfFuel.
Arguments Return {A} a.
Arguments Raise {A} e.
Arguments OutOfFuel {A}.

(* --------------------------------------------------------------------- *)
(** ** result.py *)
(* --------------------------------------------------------------------- *)

Module Result.

(** [@dataclass class TestResult]: [heads], [tails], [statistic], [p].
    [statistic] and [p] are finite numbers; every finite float is a
    rational and [<], [==] on them are the rationals' (NaN and the
    infinities are not p-values and are left out).  The alphabet symbols
    and the features of sub-tests are integers. *)
Record TestResult : Set := mkTestResult {
  heads : Z;
  tails : Z;
  statistic : Qc;
  p : Qc
}.

#[global] Instance TestResult_eq_dec : EqDecision TestResult.
Proof. solve_decision. Defined.

Abbreviation feature := Z (only parsing).

(** The contents of a [MultiTestResult] (a [dict] subclass): its items in
    insertion order, with pairwise different keys. *)
Abbreviation items := (list (feature * TestResult)) (only parsing).

Fixpoint getitem (k : feature) (d : items) : option TestResult :=
  match d with
  | [] => None
  | (k', v) :: d' => if decide (k = k') then Some v else getitem k d'
  end.

(** [d[k] = v]: an existing key keeps its position and gets the new
    value, a new key goes last. *)
Fixpoint setitem (k : feature) (v : TestResult) (d : items) : items :=
  match d with
  | [] => [(k, v)]
  | (k', v') :: d' =>
      if decide (k = k') then (k, v) :: d' else (k', v') :: setitem k v d'
  end.

(** [dict.__eq__]: the same number of items, and every key of the one is
    a key of the other with an equal value (order is not compared). *)
Definition dict_eq (d1 d2 : items) : bool :=
  bool_decide (length d1 = length d2)
  && forallb (λ kv, match getitem kv.1 d2 with
                    | Some v' => bool_decide (kv.2 = v')
                    | None => false
                    end) d1.

(** *** The bodies of the three properties *)

(** [[result.statistic for result in self.values()]] *)
Definition statistics_body (d : items) : outcome (list Qc) :=
  Return (map (λ kv, statistic kv.2) d).

(** [[result.p for result in self.values()]] *)
Definition pvalues_body (d : items) : outcome (list Qc) :=
  Return (map (λ kv, p kv.2) d).

(** The [for feature, result in items] loop of [min], started with the
    current minimum [cur]. *)
Fixpoint min_scan (cur : feature * TestResult) (rest : items)
  : feature * TestResult :=
  match rest with
  | [] => cur
  | (f, r) :: rest' =>
      if bool_decide (p r < p cur.2)%Qc then min_scan (f, r) rest'
      else min_scan cur rest'
  end.

(** [min]: [next(items)] on an empty mapping raises [StopIteration]. *)
Definition min_body (d : items) : outcome (feature * TestResult) :=
  match d with
  | [] => Raise StopIteration
  | first :: rest => Return (min_scan first rest)
  end.

(** *** Objects and [functools.lru_cache] *)

Abbreviation addr := nat (only parsing).

(** The live [MultiTestResult] objects, by identity. *)
Abbreviation heap := (gmap nat items) (only parsing).

Definition contents (h : heap) (a : addr) : items := default [] (h !! a).

(** The cache key of a call is the tuple [(self,)].  [__hash__] returns
    0 for every instance, so all keys collide and a stored key [k]
    matches [self] when [k is self] or [k == self], the latter being
    [dict.__eq__] on the objects' present contents. *)
Definition key_matches (h : heap) (self k : addr) : bool :=
  bool_decide (self = k) || dict_eq (contents h self) (contents h k).

(** One [lru_cache()] wrapper: its entries, least recently used first.
    When several stored keys match, the model takes the least recently
    used one. *)
Abbreviation cache V := (list (addr * V)) (only parsing).

Definition maxsize : nat := 128.

Fixpoint cache_find {V} (h : heap) (self : addr) (c : cache V)
  : option (addr * V * cache V) :=
  match c with
  | [] => None
  | (k, v) :: c' =>
      if key_matches h self k then Some (k, v, c')
      else match cache_find h self c' with
           | Some (k0, v0, rest) => Some (k0, v0, (k, v) :: rest)
           | None => None
           end
  end.

(** A call through the wrapper: a hit returns the stored value and makes
    the entry the most recent; a miss calls [f], and stores the result
    (dropping the least recently used entry of a full cache) unless [f]
    raised. *)
Definition lru_call {V} (f : items -> outcome V) (h : heap) (self : addr)
    (c : cache V) : cache V * outcome V :=
  match cache_find h self c with
  | Some (k, v, rest) => (rest ++ [(k, v)], Return v)
  | None =>
      match f (contents h self) with
      | Return v =>
          ((if decide (maxsize ≤ length c)%nat then tail c else c) ++ [(self, v)],
           Return v)
      | out => (c, out)
      end
  end.

(** The interpreter state the three properties see. *)
Record pystate : Type := mkPystate {
  objects : heap;
  statistics_cache : cache (list Qc);
  pvalues_cache : cache (list Qc);
  min_cache : cache (feature * TestResult)
}.

(** [self.statistics] *)
Definition statistics (self : addr) (s : pystate) : pystate * outcome (list Qc) :=
  let '(c, out) := lru_call statistics_body (objects s) self (statistics_cache s) in
  (mkPystate (objects s) c (pvalues_cache s) (min_cache s), out).

(** [self.pvalues] *)
Definition pvalues (self : addr) (s : pystate) : pystate * outcome (list Qc) :=
  let '(c, out) := lru_call pvalues_body (objects s) self (pvalues_cache s) in
  (mkPystate (objects s) (statistics_cache s) c (min_cache s), out).

(** [self.min] *)
Definition min (self : addr) (s : pystate)
  : pystate * outcome (feature * TestResult) :=
  let '(c, out) := lru_call min_body (objects s) self (min_cache s) in
  (mkPystate (objects s) (statistics_cache s) (pvalues_cache s) c, out).

(** [self[k] = v] on the object at [self]. *)
Definition setitem_obj (self : addr) (k : feature) (v : TestResult)
    (s : pystate) : pystate :=
  mkPystate (<[self := setitem k v (contents (objects s) self)]> (objects s))
            (statistics_cache s) (pvalues_cache s) (min_cache s).

(** A fresh interpreter holding one object. *)
Definition fresh (a : addr) (d : items) : pystate :=
  mkPystate {[a := d]} [] [] [].

(** *** Predicates the properties are stated with *)


(** No key stored in [c] is identical or equal to the object at [self]. *)
Definition unmatched {V} (h : heap) (self : addr) (c : cache V) : Prop :=
  Forall (λ kv, key_matches h self kv.1 = false) c.

(** None of the three caches holds a key that matches [self]. *)
Definition uncached (s : pystate) (self : addr) : Prop :=
  unmatched (objects s) self (statistics_cache s)
  ∧ unmatched (objects s) self (pvalues_cache s)
  ∧ unmatched (objects s) self (min_cache s).

(** *** Sample values *)

Definition r_05 : TestResult := mkTestResult 1 0 (Qc_of_Z 3) (Q2Qc (1 # 2)).
Definition r_02 : TestResult := mkTestResult 1 0 (Qc_of_Z 5) (Q2Qc (1 # 5)).
Definition r_02' : TestResult := mkTestResult 1 0 (Qc_of_Z 7) (Q2Qc (2 # 10)).

Definition sample_items : items := [(1, r_05); (2, r_02); (3, r_02')]%Z.

(** An interpreter with two instances, the second of which has had its
    three views read. *)
Definition sample_state : pystate :=
  mkPystate {[ 0 := [(1%Z, r_05)]; 7 := [(9%Z, r_02)] ]}
            [(7, [statistic r_02])] [(7, [p r_02])] [(7, (9%Z, r_02))].

End Result.

(* --------------------------------------------------------------------- *)
(** ** The file system *)
(* --------------------------------------------------------------------- *)

Module FS.

(** What the store's files hold.  A result filed in a store is a
    [TestResult] or the contents of a [MultiTestResult]; pickling stores
    objects by value. *)
Inductive result : Set :=
  | Single (r : Result.TestResult)
  | Multi (d : Result.items).

(** The two kinds of objects the stores pickle: the [pd.Series] of a
    store (its name and values) and a results [dict], in insertion
    order. *)
Inductive pyobj : Set :=
  | Series (name : string) (values : list Z)
  | Dict (d : list (string * result)).

(** A file is empty (zero bytes, as [open(path, "wb")] leaves it) or holds
    one complete pickle. *)
Definition content : Set := option pyobj.

(** A directory lists its entries by name.  Only directories and regular
    files are modelled (no links, no permissions). *)
Inductive node : Set :=
  | File (c : content)
  | Dir (entries : list (string * node)).

(** A [pathlib.Path], from the root, one component per element. *)
Definition Path : Set := list string.

(** A name that is one path component: not empty, not [.] or [..], and
    without [/] and the NUL character.  For such a name [base / name] is
    the entry [name] of [base], the path [base ++ [name]]; for any other
    string [pathlib] and the operating system resolve another path (the
    directory itself, its parent, a path of several components, an
    absolute path) or refuse the name. *)
Definition component (name : string) : bool :=
  negb (bool_decide (name = ""))
  && negb (bool_decide (name = "."))
  && negb (bool_decide (name = ".."))
  && forallb (λ c, negb (bool_decide (c = "/"%char ∨ c = "000"%char)))
       (String.list_ascii_of_string name).

Section Assoc.
Context {A : Type}.

Fixpoint assoc (x : string) (es : list (string * A)) : option A :=
  match es with
  | [] => None
  | (y, a) :: es' => if decide (x = y) then Some a else assoc x es'
  end.

Fixpoint alter_assoc (x : string) (g : A -> A) (es : list (string * A))
  : list (string * A) :=
  match es with
  | [] => []
  | (y, a) :: es' =>
      if decide (x = y) then (y, g a) :: es' else (y, a) :: alter_assoc x g es'
  end.

Fixpoint remove_assoc (x : string) (es : list (string * A))
  : list (string * A) :=
  match es with
  | [] => []
  | (y, a) :: es' =>
      if decide (x = y) then es' else (y, a) :: remove_assoc x es'
  end.
End Assoc.

(** Path resolution, with the error the OS reports when it fails. *)
Fixpoint stat (path : Path) (n : node) : outcome node :=
  match path with
  | [] => Return n
  | x :: path' =>
      match n with
      | File _ => Raise NotADirectoryError
      | Dir es =>
          match assoc x es with
          | None => Raise FileNotFoundError
          | Some c => stat path' c
          end
      end
  end.

(** Rewrite the entry list of the directory at [path]. *)
Fixpoint update_dir (path : Path)
    (f : list (string * node) -> list (string * node)) (n : node) : node :=
  match n with
  | File c => File c
  | Dir es =>
      match path with
      | [] => Dir (f es)
      | x :: path' => Dir (alter_assoc x (update_dir path' f) es)
      end
  end.

(** [path.parent] and [path.name]; the root has neither. *)
Fixpoint split_last (path : Path) : option (Path * string) :=
  match path with
  | [] => None
  | x :: path' =>
      match split_last path' with
      | None => Some ([], x)
      | Some (q, y) => Some (x :: q, y)
      end
  end.

Definition is_dir_node (n : node) : bool :=
  match n with Dir _ => true | File _ => false end.

(** [Path.exists], [Path.is_file], [Path.is_dir]: false when resolution
    fails. *)
Definition path_exists (path : Path) (t : node) : bool :=
  match stat path t with Return _ => true | _ => false end.

Definition path_is_file (path : Path) (t : node) : bool :=
  match stat path t with Return (File _) => true | _ => false end.

(** [path.glob("*")]: the children of a directory, and nothing for
    anything else. *)
Definition path_glob (path : Path) (t : node) : list Path :=
  match stat path t with
  | Return (Dir es) => map (λ e, path ++ [e.1]) es
  | _ => []
  end.

(** [os.scandir(path)]: the entries of a directory. *)
Definition os_scandir (path : Path) (t : node) : outcome (list (string * node)) :=
  match stat path t with
  | Return (Dir es) => Return es
  | Return (File _) => Raise NotADirectoryError
  | Raise e => Raise e
  | OutOfFuel => OutOfFuel
  end.

(** [Path.unlink] *)
Definition path_unlink (path : Path) (t : node) : outcome node :=
  match stat path t with
  | Return (File _) =>
      match split_last path with
      | Some (q, x) => Return (update_dir q (remove_assoc x) t)
      | None => Raise OSError
      end
  | Return (Dir _) => Raise IsADirectoryError
  | Raise e => Raise e
  | OutOfFuel => OutOfFuel
  end.

(** [Path.rmdir]: only an empty directory goes. *)
Definition path_rmdir (path : Path) (t : node) : outcome node :=
  match stat path t with
  | Return (Dir []) =>
      match split_last path with
      | Some (q, x) => Return (update_dir q (remove_assoc x) t)
      | None => Raise OSError
      end
  | Return (Dir (_ :: _)) => Raise OSError
  | Return (File _) => Raise NotADirectoryError
  | Raise e => Raise e
  | OutOfFuel => OutOfFuel
  end.

(** [Path.mkdir(path)] (no [parents], no [exist_ok]): the new directory
    goes last in its parent. *)
Definition path_mkdir (path : Path) (t : node) : outcome node :=
  match split_last path with
  | None => Raise FileExistsError
  | Some (q, x) =>
      match stat q t with
      | Return (Dir es) =>
          match assoc x es with
          | Some _ => Raise FileExistsError
          | None => Return (update_dir q (λ es, es ++ [(x, Dir [])]) t)
          end
      | Return (File _) => Raise NotADirectoryError
      | Raise e => Raise e
      | OutOfFuel => OutOfFuel
      end
  end.

(** [open(path, "rb")] followed by reading the file. *)
Definition open_rb (path : Path) (t : node) : outcome content :=
  match stat path t with
  | Return (File c) => Return c
  | Return (Dir _) => Raise IsADirectoryError
  | Raise e => Raise e
  | OutOfFuel => OutOfFuel
  end.

(** [open(path, "wb")]: the file is created, or cut to zero bytes, at
    once. *)
Definition open_wb (path : Path) (t : node) : outcome node :=
  match split_last path with
  | None => Raise IsADirectoryError
  | Some (q, x) =>
      match stat q t with
      | Return (Dir es) =>
          match assoc x es with
          | Some (Dir _) => Raise IsADirectoryError
          | Some (File _) =>
              Return (update_dir q (alter_assoc x (λ _, File None)) t)
          | None => Return (update_dir q (λ es, es ++ [(x, File None)]) t)
          end
      | Return (File _) => Raise NotADirectoryError
      | Raise e => Raise e
      | OutOfFuel => OutOfFuel
      end
  end.

(** What [pickle.dump(obj, f)] and the closing of [f] leave in the file
    opened at [path]. *)
Definition write_pickle (path : Path) (obj : pyobj) (t : node) : outcome node :=
  match split_last path with
  | None => Return t
  | Some (q, x) =>
      Return (update_dir q (alter_assoc x (λ n, match n with
                                                 | File _ => File (Some obj)
                                                 | Dir es => Dir es
                                                 end)) t)
  end.

(** [pickle.load(f)]: an empty file has no pickle to read. *)
Definition pickle_load (c : content) : outcome pyobj :=
  match c with
  | None => Raise EOFError
  | Some obj => Return obj
  end.

(** The nesting depth of a tree: a file has none, a directory one more
    than its deepest entry. *)
Fixpoint height (n : node) : nat :=
  match n with
  | File _ => 0
  | Dir es => S (max_list (map (λ e, height e.2) es))
  end.

(** Put [es] as the entry list of the directory at [q]. *)
Definition set_dir (q : Path) (es : list (string * node)) : node → node :=
  update_dir q (λ _, es).

End FS.

(* --------------------------------------------------------------------- *)
(** ** store.py *)
(* --------------------------------------------------------------------- *)

Module Store.
Import FS.

(** What the module takes from its surroundings: the data directory that
    [appdirs] picks, [rngtest.slugify.slugify], the readings of
    [datetime.now()] (the [k]-th call returns [clock k]) and their
    rendering by [strftime("%Y%m%dT%H%M%SZ")]. *)
Class Platform : Type := {
  data_dir : Path;
  slugify : string -> string;
  clock : nat -> Z;
  strftime : Z -> string
}.

Definition PROFILED_DATA_FNAME : string := "series.pickle".
Definition RESULTS_FNAME : string := "results.pickle".
Definition UNIQUE_STORENAME_ATTEMPTS : nat := 3.

(** The state the module works on: the file system and the number of
    clock readings taken so far.  Printed messages are not modelled. *)
Record world : Set := mkWorld {
  fs : node;
  ticks : nat
}.

(** A computation changes the world and returns, raises or runs out of
    fuel; the world it leaves is kept in every case. *)
Definition M (A : Type) : Type := world -> world * outcome A.

#[global] Instance M_ret : MRet M := λ A a w, (w, Return a).

#[global] Instance M_bind : MBind M := λ A B k m w,
  match m w with
  | (w', Return a) => k a w'
  | (w', Raise e) => (w', Raise e)
  | (w', OutOfFuel) => (w', OutOfFuel)
  end.

Definition raise {A} (e : exn) : M A := λ w, (w, Raise e).

Definition out_of_fuel {A} : M A := λ w, (w, OutOfFuel).

(** [try: m except cls: handler] *)
Definition try_except {A} (m : M A) (cls : exn) (handler : M A) : M A := λ w,
  match m w with
  | (w', Raise e) => if isinstance e cls then handler w' else (w', Raise e)
  | r => r
  end.

(** Reading from, and acting on, the file system. *)
Definition fs_read {A} (f : node -> outcome A) : M A := λ w, (w, f (fs w)).

Definition fs_write (f : node -> outcome node) : M unit := λ w,
  match f (fs w) with
  | Return t => (mkWorld t (ticks w), Return tt)
  | Raise e => (w, Raise e)
  | OutOfFuel => (w, OutOfFuel)
  end.

(** [for x in xs: body(x)] *)
Fixpoint for_each {A} (xs : list A) (body : A -> M unit) : M unit :=
  match xs with
  | [] => mret tt
  | x :: xs' => body x;; for_each xs' body
  end.

(** [datetime.now()] *)
Definition now `{Platform} : M Z := λ w,
  (mkWorld (fs w) (S (ticks w)), Return (clock (ticks w))).

(** [sleep(1.5)]: time passes, which later clock readings show. *)
Definition sleep : M unit := mret tt.

(** A generator that ran over an unchanging file system: the values it
    yielded, and how it ended ([Return tt] when it was exhausted). *)
Definition generated (A : Type) : Type := list A * outcome unit.

(** [x in gen]: true at the first equal value; otherwise the generator is
    run to its end, and its exception, if any, comes out. *)
Definition gen_contains (x : string) (g : generated string) : outcome bool :=
  if bool_decide (x ∈ g.1) then Return true
  else match g.2 with
       | Return _ => Return false
       | Raise e => Raise e
       | OutOfFuel => OutOfFuel
       end.

Section WithPlatform.
Context `{Platform}.

(** The names [for f in scandir(data_dir): if f.is_dir(): yield f.name]
    yields. *)
Definition dir_names (es : list (string * node)) : list string :=
  map fst (filter (λ e, is_dir_node e.2 = true) es).

(** [ls_stores]: a first loop outside any [try], then the same loop
    again inside [try ... except FileNotFoundError: pass]. *)
Definition ls_stores (t : node) : generated string :=
  match os_scandir data_dir t with
  | Return es =>
      match os_scandir data_dir t with
      | Return es' => (dir_names es ++ dir_names es', Return tt)
      | Raise e =>
          (dir_names es,
           if isinstance e FileNotFoundError then Return tt else Raise e)
      | OutOfFuel => (dir_names es, OutOfFuel)
      end
  | Raise e => ([], Raise e)
  | OutOfFuel => ([], OutOfFuel)
  end.

(** The [for _ in range(UNIQUE_STORENAME_ATTEMPTS): ... else: raise
    NameConflictError()] loop of [init_store], with [attempts] rounds
    left. *)
Fixpoint synthesize_name (attempts : nat) : M string :=
  match attempts with
  | 0 => raise NameConflictError
  | S attempts' =>
      timestamp ← now;
      let store_name := strftime timestamp in
      taken ← fs_read (λ t, gen_contains store_name (ls_stores t));
      if negb taken then mret store_name
      else sleep;; synthesize_name attempts'
  end.

(** [rm_tree(path)] *)
Fixpoint rm_tree (fuel : nat) (path : Path) : M unit :=
  match fuel with
  | 0 => out_of_fuel
  | S fuel' =>
      children ← fs_read (λ t, Return (path_glob path t));
      for_each children (λ child,
        is_file ← fs_read (λ t, Return (path_is_file child t));
        if (is_file : bool) then fs_write (path_unlink child)
        else rm_tree fuel' child);;
      fs_write (path_rmdir path)
  end.

(** One round of the loop of [rm_tree]. *)
Definition rm_child (fuel : nat) (child : Path) : M unit :=
  is_file ← fs_read (λ t, Return (path_is_file child t));
  if (is_file : bool) then fs_write (path_unlink child) else rm_tree fuel child.

(** [init_store(name, overwrite)].  [data_dir / store_name] is taken as
    the entry [store_name] of the data directory, which is what it is
    when the name is one [component]. *)
Definition init_store (fuel : nat) (name : option string) (overwrite : bool)
  : M (string * Path) :=
  store_name ← match name with
               | Some name => mret (slugify name)
               | None => synthesize_name UNIQUE_STORENAME_ATTEMPTS
               end;
  let store_path := data_dir ++ [store_name] in
  try_except (fs_write (path_mkdir store_path)) FileExistsError
    (if overwrite then
       rm_tree fuel store_path;; fs_write (path_mkdir store_path)
     else raise StoreExistsError);;
  mret (store_name, store_path).

(** [get_data(store_name)], for a [store_name] that is one [component]:
    [data_dir / store_name] is the entry of that name in the data
    directory. *)
Definition get_data (store_name : string) : M pyobj :=
  let store_path := data_dir ++ [store_name] in
  found ← fs_read (λ t, Return (path_exists store_path t));
  if negb found then raise StoreNotFoundError
  else
    let single_profile_path := store_path ++ [PROFILED_DATA_FNAME] in
    try_except
      (f ← fs_read (open_rb single_profile_path);
       fs_read (λ _, pickle_load f))
      FileNotFoundError
      (raise DataNotFoundError).

(** [drop(store_name)], for a [store_name] that is one [component]. *)
Definition drop (fuel : nat) (store_name : string) : M unit :=
  rm_tree fuel (data_dir ++ [store_name]).

(** [with open_results(store_name, write) as results: body], for a
    [store_name] that is one [component].  The block gets the loaded
    mapping, may change it in place, and returns or raises:
    [body results] is the mapping as the block left it and how the block
    ended.  The blocks modelled work on the mapping only: a block that
    itself reads or writes the file system or reads the clock is outside
    the model. *)
Definition open_results {A} (store_name : string) (write : bool)
    (body : pyobj -> pyobj * outcome A) : M A :=
  let store_path := data_dir ++ [store_name] in
  let results_path := store_path ++ [RESULTS_FNAME] in
  found ← fs_read (λ t, Return (path_exists results_path t));
  results ← (if negb found then mret (Dict [])
             else
               f ← fs_read (open_rb results_path);
               try_except (fs_read (λ _, pickle_load f)) EOFError
                 (mret (Dict [])));
  if write then
    fs_write (open_wb results_path);;
    match body results with
    | (results', Return a) =>
        fs_write (write_pickle results_path results');;
        mret a
    | (_, Raise e) => raise e
    | (_, OutOfFuel) => out_of_fuel
    end
  else
    _ ← fs_read (open_rb results_path);
    match body results with
    | (_, Return a) => mret a
    | (_, Raise e) => raise e
    | (_, OutOfFuel) => out_of_fuel
    end.

(** A read transaction whose block just hands the mapping back. *)
Definition read_results (store_name : string) : M pyobj :=
  open_results store_name false (λ results, (results, Return results)).

End WithPlatform.

(** *** A sample platform and sample file systems *)

(** A clock read every 1.5 seconds, in milliseconds, and the rendering of
    its first readings to the second. *)
Definition sample_strftime (t : Z) : string :=
  if decide (t = 0)%Z then "20200101T000000Z"
  else if decide (t = 1500)%Z then "20200101T000001Z"
  else "20200101T000003Z".

Definition sample_platform : Platform := {|
  data_dir := ["home"; "rngtest"];
  slugify := λ name, name;
  clock := λ k, (1500 * Z.of_nat k)%Z;
  strftime := sample_strftime
|}.

(** A file system whose data directory holds [stores]. *)
Definition in_data_dir (stores : list (string * node)) : node :=
  Dir [("home", Dir [("rngtest", Dir stores)])].

Definition sample_series : pyobj := Series "demo" [0; 1; 1; 0; 1]%Z.

Definition sample_results : pyobj := Dict [("runs_test", Single Result.r_05)].

Definition sample_store : node :=
  Dir [("series.pickle", File (Some sample_series));
       ("results.pickle", File (Some sample_results))].

Definition nested_store : node :=
  Dir [("series.pickle", File (Some sample_series));
       ("plots", Dir [("a.png", File None);
                      ("old", Dir [("b.png", File None); ("deep", Dir [])])]);
       ("results.pickle", File None)].

Definition sample_fs : node :=
  in_data_dir [("demo", sample_store); ("other", nested_store);
               ("notes.txt", File None)].

(** A store that was created and never written to. *)
Definition bare_fs : node := in_data_dir [("demo", Dir [])].

(** The data directory was removed. *)
Definition no_data_dir_fs : node := Dir [("home", Dir [])].

(** Stores named after the first three readings of the sample clock. *)
Definition crowded_fs : node :=
  in_data_dir [("20200101T000000Z", Dir []); ("20200101T000001Z", Dir []);
               ("20200101T000003Z", Dir [])].

(** A block that files one more result and then fails. *)
Definition failing_block (results : pyobj) : pyobj * outcome unit :=
  (match results with
   | Dict d => Dict (d ++ [("monobit", Single Result.r_02)])
   | Series name values => Series name values
   end,
   Raise (UserError 0)).

End Store.

(* --------------------------------------------------------------------- *)
(** ** store.py: filing results and loading data *)
(* --------------------------------------------------------------------- *)

Module Loading.
Import FS Store.

(** [d[k] = v] on a dict with string keys: an existing key keeps its
    place and gets the new value, a new key goes last. *)
Fixpoint dict_set {A} (k : string) (v : A) (d : list (string * A))
  : list (string * A) :=
  match d with
  | [] => [(k, v)]
  | (k', v') :: d' =>
      if decide (k = k') then (k, v) :: d' else (k', v') :: dict_set k v d'
  end.

(** A result object as [load_result] sees it: the name of its class
    ([result.__class__.__name__]) and the value that is pickled. *)
Record result_obj : Set := mkResultObj {
  class_name : string;
  pickled : result
}.

(** The block of [load_result]: [results_dict[class_name] = result].  A
    results file is only ever written by [open_results], from a dict; for
    another object the model stops. *)
Definition file_result (r : result_obj) (results_dict : pyobj)
  : pyobj * outcome unit :=
  match results_dict with
  | Dict d => (Dict (dict_set (class_name r) (pickled r) d), Return tt)
  | Series name values => (Series name values, OutOfFuel)
  end.

(** The block of [load_results]: the same assignment for every result,
    in order. *)
Definition file_results (results : list result_obj) (results_dict : pyobj)
  : pyobj * outcome unit :=
  match results_dict with
  | Dict d =>
      (Dict (foldl (λ d r, dict_set (class_name r) (pickled r) d) d results),
       Return tt)
  | Series name values => (Series name values, OutOfFuel)
  end.

(** A parsed data file: the columns of the [pd.DataFrame] that
    [parse_data] returned. *)
Definition DataFrame : Set := list (list Z).

(** The exceptions [load_data] raises before it touches a store:
    [MultipleColumnsError] of this module and the [IndexError] of
    [df.iloc[:, 0]] on a frame without columns. *)
Inductive frame_error : Set :=
  | MultipleColumnsError
  | IndexError.

Section WithPlatform.
Context `{Platform}.

(** [load_result(store_name, result)] *)
Definition load_result (store_name : string) (result : result_obj) : M unit :=
  open_results store_name true (file_result result).

(** [load_results(store_name, results)] *)
Definition load_results (store_name : string) (results : list result_obj)
  : M unit :=
  open_results store_name true (file_results results).

(** [load_data(datafile, name, dtypestr, overwrite)] from the frame [df]
    that [parse_data(datafile, dtypestr)] returned. *)
Definition load_data (fuel : nat) (df : DataFrame) (name : option string)
    (overwrite : bool) : world -> world * (frame_error + outcome unit) := λ w,
  if bool_decide (1 < length df) then (w, inl MultipleColumnsError)
  else
    match df with
    | [] => (w, inl IndexError)
    | series :: _ =>
        let '(w', o) :=
          (store ← init_store fuel name overwrite;
           let series := Series store.1 series in
           let data_path := store.2 ++ [PROFILED_DATA_FNAME] in
           fs_write (open_wb data_path);;
           fs_write (write_pickle data_path series)) w in
        (w', inr o)
    end.

End WithPlatform.

(** [m] does nothing to the world but rewrite the entries of the
    directory at [dir], and of those it leaves every entry other than
    [entry] as it is. *)
Definition rewrites_only {A} (dir : Path) (entry : string) (m : M A) : Prop :=
  ∀ w, ∃ g,
    fs (m w).1 = update_dir dir g (fs w)
    ∧ ticks (m w).1 = ticks w
    ∧ ∀ es y, y ≠ entry → assoc y (g es) = assoc y es.

(** The mapping [d] after the assignments of [load_results] for
    [results]. *)
Definition filed (results : list result_obj) (d : list (string * result))
  : list (string * result) :=
  foldl (λ d r, dict_set (class_name r) (pickled r) d) d results.

(** What a transaction on a store loads, read off the entries [es] of
    the store's directory: the pickled object of the results file, and
    the empty mapping when the file is missing or has zero bytes. *)
Definition stored_results (es : list (string * node)) : pyobj :=
  match assoc RESULTS_FNAME es with
  | Some (File (Some obj)) => obj
  | _ => Dict []
  end.

(** *** Sample results *)

Definition monobit_result : result_obj :=
  mkResultObj "MonobitTestResult" (Single Result.r_02).

Definition runs_result : result_obj :=
  mkResultObj "runs_test" (Single Result.r_02').

(** *** More sample file systems *)

(** Stores named after the first two readings of the sample clock. *)
Definition busy_fs : node :=
  in_data_dir [("20200101T000000Z", Dir []); ("20200101T000001Z", Dir [])].

(** A store whose sequence file has zero bytes, and one whose sequence
    entry is a directory. *)
Definition damaged_fs : node :=
  in_data_dir [("cut", Dir [("series.pickle", File None)]);
               ("odd", Dir [("series.pickle", Dir [])])].

End Loading.

(* --------------------------------------------------------------------- *)
(** ** result.py: text helpers; tests/randtests/strategies.py *)
(* --------------------------------------------------------------------- *)

(* --------------------------------------------------------------------- *)
(** ** store.py: making the data directory when the module is loaded *)
(* --------------------------------------------------------------------- *)

Module Startup.
Import FS Store.

(** [Path.is_dir] *)
Definition path_is_dir (path : Path) (t : node) : bool :=
  match stat path t with Return (Dir _) => true | _ => false end.

(** [path.mkdir(parents=False, exist_ok=exist_ok)] as [pathlib] runs it:
    [os.mkdir]; a [FileNotFoundError] is raised again; any other
    [OSError] is raised again unless [exist_ok] holds and the path is a
    directory. *)
Definition mkdir_exist_ok (path : Path) (exist_ok : bool) (t : node)
  : outcome node :=
  match path_mkdir path t with
  | Raise e =>
      if bool_decide (e = FileNotFoundError) then Raise e
      else if exist_ok && path_is_dir path t then Return t else Raise e
  | other => other
  end.

(** [path.mkdir(parents=True, exist_ok=exist_ok)]: on [FileNotFoundError]
    (and unless the path is the root, which is its own parent) the parent
    is made with [parents=True, exist_ok=True] and the path is made again
    without [parents].  [fuel] bounds the calls on parents. *)
Fixpoint mkdir_parents (fuel : nat) (path : Path) (exist_ok : bool)
    (t : node) : outcome node :=
  match path_mkdir path t with
  | Raise e =>
      if bool_decide (e = FileNotFoundError) then
        match split_last path with
        | None => Raise e
        | Some (parent, _) =>
            match fuel with
            | 0 => OutOfFuel
            | S fuel' =>
                match mkdir_parents fuel' parent true t with
                | Return t1 => mkdir_exist_ok path exist_ok t1
                | other => other
                end
            end
        end
      else if exist_ok && path_is_dir path t then Return t else Raise e
  | other => other
  end.

(** The module's first statement:
    [try: Path.mkdir(data_dir, parents=True) except FileExistsError: pass].
    The message printed after the directory is made goes to the standard
    output, which is no part of [world]. *)
Definition create_data_dir `{Platform} (fuel : nat) : M unit :=
  try_except (fs_write (mkdir_parents fuel data_dir false)) FileExistsError
    (mret tt).

(** What is a file at [p] in the one tree is the same file in the other,
    and what is a directory is a directory. *)
Definition same_kind (o o' : outcome node) : Prop :=
  match o with
  | Return (File c) => o' = Return (File c)
  | Return (Dir _) => ∃ es', o' = Return (Dir es')
  | _ => True
  end.

End Startup.

Module Views.
Import Result.

(** None of the three caches holds more than [maxsize] entries. *)
Definition caches_bounded (s : pystate) : Prop :=
  (length (statistics_cache s) ≤ maxsize
   ∧ length (pvalues_cache s) ≤ maxsize
   ∧ length (min_cache s) ≤ maxsize)%nat.

(** Two instances, the second holding what the first will hold after one
    insertion; nothing is cached. *)
Definition two_instances : pystate :=
  mkPystate {[ 0 := [(1%Z, r_05)]; 1 := [(1%Z, r_05); (2%Z, r_02)] ]} [] [] [].

End Views.

Module Text.

(** [" " * n]; a negative count gives the empty string, as does the
    truncated subtraction the callers below compute [n] with. *)
Fixpoint spaces (n : nat) : string :=
  match n with
  | 0 => ""
  | S n' => String " "%char (spaces n')
  end.

(** [pad_right(string, maxlen)] *)
Definition pad_right (string : string) (maxlen : nat) : String.string :=
  let nspaces := maxlen - String.length string in
  string +:+ spaces nspaces.

(** [f_num.find(".")]: the index of the first dot, if there is one. *)
Fixpoint find_dot (s : string) : option nat :=
  match s with
  | EmptyString => None
  | String c s' =>
      if decide (c = "."%char) then Some 0 else S <$> find_dot s'
  end.

(** [pos = f_num.find("."); if pos == -1: pos = len(f_num)] *)
Definition dot_position (f_num : string) : nat :=
  match find_dot f_num with
  | Some pos => pos
  | None => String.length f_num
  end.

(** [max(xs)] of a list: [ValueError] on the empty list. *)
Inductive value_error : Set := ValueError.

Definition py_max (xs : list nat) : value_error + nat :=
  match xs with
  | [] => inl ValueError
  | x :: xs' => inr (foldl Nat.max x xs')
  end.

Section AlignNums.
(** The numbers of a table column and their rendering
    [str(smartround(num, 3))]. *)
Context {num : Type} (render : num -> string).

(** [align_nums(nums)] *)
Definition align_nums (nums : list num) : value_error + list string :=
  let f_nums := map render nums in
  let dot_positions := map dot_position f_nums in
  match py_max dot_positions with
  | inl e => inl e
  | inr maxpos =>
      inr (map (λ fp : string * nat,
                  let left_pad := spaces (maxpos - fp.2) in
                  left_pad +:+ fp.1)
               (zip f_nums dot_positions))
  end.

End AlignNums.

End Text.

Module Strategies.

(** The [for val in array[1:]: if val != firstval: return True] loop with
    its [else: return False]. *)
Fixpoint differs_from (firstval : Z) (rest : list Z) : bool :=
  match rest with
  | [] => false
  | val :: rest' =>
      if bool_decide (val ≠ firstval) then true else differs_from firstval rest'
  end.

(** [contains_multiple_values(array)]; [None] is the [IndexError] of
    [array[0]] on an empty list. *)
Definition contains_multiple_values (array : list Z) : option bool :=
  match array with
  | [] => None
  | firstval :: rest => Some (differs_from firstval rest)
  end.

End Strategies.

(* ===================================================================== *)
(** * Part II: properties *)
(* ===================================================================== *)

(** ** [functools.lru_cache] *)

Section CacheFacts.
Import Result.

Lemma cache_find_unmatched {V} h self (c : cache V) :
  unmatched h self c → cache_find h self c = None.
Proof.
  induction 1 as [|[k v] c Hk _ IH]; simpl in *; [done|].
  by rewrite Hk, IH.
Qed.

Lemma cache_find_own {V} h self (c : cache V) v :
  unmatched h self c → cache_find h self (c ++ [(self, v)]) = Some (self, v, c).
Proof.
  induction 1 as [|[k w] c Hk _ IH]; simpl in *.
  - unfold key_matches. by rewrite bool_decide_eq_true_2.
  - by rewrite Hk, IH.
Qed.

Lemma unmatched_tail {V} h self (c : cache V) :
  unmatched h self c → unmatched h self (tail c).
Proof. destruct 1; [constructor|done]. Qed.

(** A miss computes the value from the present contents and stores it. *)
Lemma lru_call_miss {V} (f : items → outcome V) h self c v :
  unmatched h self c → f (contents h self) = Return v →
  lru_call f h self c
  = ((if decide (maxsize ≤ length c)%nat then tail c else c) ++ [(self, v)],
     Return v).
Proof.
  intros Hc Hf. unfold lru_call. by rewrite (cache_find_unmatched _ _ _ Hc), Hf.
Qed.

(** Once stored, the value comes back whatever the object holds by then. *)
Lemma lru_call_own {V} (f : items → outcome V) h self c v :
  unmatched h self c →
  lru_call f h self (c ++ [(self, v)]) = (c ++ [(self, v)], Return v).
Proof.
  intros Hc. unfold lru_call. by rewrite (cache_find_own _ _ _ _ Hc).
Qed.

Lemma lru_call_stale {V} (f : items → outcome V) h h' self c v :
  unmatched h self c → unmatched h' self c →
  f (contents h self) = Return v →
  (lru_call f h self c).2 = Return v
  ∧ (lru_call f h' self (lru_call f h self c).1).2 = Return v.
Proof.
  intros Hc Hc' Hf. rewrite (lru_call_miss _ _ _ _ _ Hc Hf). simpl.
  split; [done|]. rewrite lru_call_own; [done|].
  case_decide; [by apply unmatched_tail|done].
Qed.

End CacheFacts.

(** ** [MultiTestResult.min] *)

Section MinScan.
Import Result.
Local Open Scope Qc_scope.







(** The spec's example: of [(f1, 0.5)], [(f2, 0.2)], [(f3, 0.2)] the
    second is returned. *)
Example min_sample : min_body sample_items = Return (2%Z, r_02).
Proof. reflexivity. Qed.

End MinScan.

(** ** The cached views of [MultiTestResult] *)

Section CachedViews.
Import Result.

Lemma length_setitem_new k r (d : items) :
  getitem k d = None → length (setitem k r d) = S (length d).
Proof.
  induction d as [|[k' v'] d IH]; simpl; [done|].
  case_decide; [done|]. intros Hk. simpl. by rewrite IH.
Qed.

(** C2, as the code has it.  Take a non-empty [MultiTestResult] for which
    nothing is cached: no key stored by an earlier access is the instance
    or equal to it, before the insertion or after it.  Then the first
    access of [statistics], [pvalues] and [min] returns the value
    computed from the contents [d] at that moment; and after [self[k] = r]
    the next access returns that same value again, the one computed from
    [d], not one recomputed over the updated contents.  When [k] is a new
    key, the recomputed [statistics] and [pvalues] would be longer, so
    the returned ones are out of date. *)
Theorem views_cached_at_first_access (s : pystate) (self : addr)
    (d : items) (k : feature) (r : TestResult) :
  objects s !! self = Some d → d ≠ [] →
  uncached s self → uncached (setitem_obj self k r s) self →
  ((statistics self s).2 = statistics_body d
   ∧ (statistics self (setitem_obj self k r (statistics self s).1)).2
     = statistics_body d)
  ∧ ((pvalues self s).2 = pvalues_body d
     ∧ (pvalues self (setitem_obj self k r (pvalues self s).1)).2
       = pvalues_body d)
  ∧ ((Result.min self s).2 = min_body d
     ∧ (Result.min self (setitem_obj self k r (Result.min self s).1)).2
       = min_body d)
  ∧ (getitem k d = None →
     statistics_body (setitem k r d) ≠ statistics_body d
     ∧ pvalues_body (setitem k r d) ≠ pvalues_body d).
Proof.
  intros Hd Hne (Hs1 & Hp1 & Hm1) (Hs2 & Hp2 & Hm2).
  assert (Hc : contents (objects s) self = d) by (unfold contents; by rewrite Hd).
  split; [|split; [|split]].
  - destruct (lru_call_stale statistics_body _ _ self _
                (map (λ kv, statistic kv.2) d) Hs1 Hs2) as [H1 H2].
    { by rewrite Hc. }
    unfold statistics, setitem_obj in *.
    destruct (lru_call statistics_body (objects s) self (statistics_cache s))
      as [c1 o1] eqn:E1. simpl in *. split; [done|].
    destruct (lru_call statistics_body _ self c1) as [c2 o2] eqn:E2.
    simpl in *. done.
  - destruct (lru_call_stale pvalues_body _ _ self _
                (map (λ kv, p kv.2) d) Hp1 Hp2) as [H1 H2].
    { by rewrite Hc. }
    unfold pvalues, setitem_obj in *.
    destruct (lru_call pvalues_body (objects s) self (pvalues_cache s))
      as [c1 o1] eqn:E1. simpl in *. split; [done|].
    destruct (lru_call pvalues_body _ self c1) as [c2 o2] eqn:E2.
    simpl in *. done.
  - destruct d as [|x rest]; [done|].
    destruct (lru_call_stale min_body _ _ self _ (min_scan x rest) Hm1 Hm2)
      as [H1 H2].
    { by rewrite Hc. }
    unfold Result.min, setitem_obj in *.
    destruct (lru_call min_body (objects s) self (min_cache s))
      as [c1 o1] eqn:E1. simpl in *. split; [done|].
    destruct (lru_call min_body _ self c1) as [c2 o2] eqn:E2.
    simpl in *. done.
  - intros Hk. pose proof (length_setitem_new k r d Hk) as Hlen.
    unfold statistics_body, pvalues_body.
    split; intros [= Heq]; apply (f_equal length) in Heq;
      rewrite !length_map in Heq; lia.
Qed.

Lemma views_cached_at_first_access_witness :
  let s := sample_state in
  let d := [(1%Z, r_05)] in
  ((statistics 0 s).2 = statistics_body d
   ∧ (statistics 0 (setitem_obj 0 2%Z r_02 (statistics 0 s).1)).2
     = statistics_body d)
  ∧ ((pvalues 0 s).2 = pvalues_body d
     ∧ (pvalues 0 (setitem_obj 0 2%Z r_02 (pvalues 0 s).1)).2
       = pvalues_body d)
  ∧ ((Result.min 0 s).2 = min_body d
     ∧ (Result.min 0 (setitem_obj 0 2%Z r_02 (Result.min 0 s).1)).2
       = min_body d)
  ∧ statistics_body (setitem 2%Z r_02 d) ≠ statistics_body d
  ∧ pvalues_body (setitem 2%Z r_02 d) ≠ pvalues_body d.
Proof.
  assert (Hd : objects sample_state !! 0 = Some [(1%Z, r_05)]) by reflexivity.
  assert (Hne : [(1%Z, r_05)] ≠ []) by discriminate.
  assert (Hu : uncached sample_state 0)
    by (repeat split; repeat constructor).
  assert (Hu' : uncached (setitem_obj 0 2%Z r_02 sample_state) 0)
    by (repeat split; repeat constructor).
  destruct (views_cached_at_first_access sample_state 0 [(1%Z, r_05)]
              2%Z r_02 Hd Hne Hu Hu') as (Hs & Hp & Hm & Hnew).
  destruct (Hnew eq_refl) as [Hns Hnp].
  repeat split; solve [apply Hs | apply Hp | apply Hm | assumption].
Defined.

(** C2 as stated fails: on a fresh instance holding one result, read
    [pvalues], insert a second result, read [pvalues] again.  The second
    read returns the one-element list of the first read, while the
    mapping's contents now give a two-element list. *)
Lemma pvalues_stale_after_insert :
  let s0 := fresh 0 [(1%Z, r_05)] in
  let s1 := (pvalues 0 s0).1 in
  let s2 := setitem_obj 0 2%Z r_02 s1 in
  contents (objects s2) 0 = [(1%Z, r_05); (2%Z, r_02)]
  ∧ (pvalues 0 s2).2 = Return [p r_05]
  ∧ pvalues_body (contents (objects s2) 0) = Return [p r_05; p r_02]
  ∧ (pvalues 0 s2).2 ≠ pvalues_body (contents (objects s2) 0).
Proof.
  assert (E : (pvalues 0 (setitem_obj 0 2%Z r_02
                            (pvalues 0 (fresh 0 [(1%Z, r_05)])).1)).2
              = Return [p r_05]) by (vm_compute; reflexivity).
  cbv zeta. rewrite E. repeat split; try (vm_compute; reflexivity).
  discriminate.
Qed.


End CachedViews.

(** ** The file system: resolution and updates *)

Section FSFacts.
Import FS.

Lemma assoc_alter {A} x (g : A → A) es :
  assoc x (alter_assoc x g es) = g <$> assoc x es.
Proof.
  induction es as [|[y a] es IH]; simpl; [done|].
  case_decide; simpl; rewrite ?decide_True, ?decide_False by done; done.
Qed.

Lemma alter_assoc_ext {A} x (g g' : A → A) es :
  (∀ a, g a = g' a) → alter_assoc x g es = alter_assoc x g' es.
Proof.
  intros Hg. induction es as [|[y a] es IH]; simpl; [done|].
  case_decide; by rewrite ?Hg, ?IH.
Qed.

Lemma alter_assoc_compose {A} x (g f : A → A) es :
  alter_assoc x g (alter_assoc x f es) = alter_assoc x (g ∘ f) es.
Proof.
  induction es as [|[y a] es IH]; simpl; [done|].
  case_decide; simpl; rewrite ?decide_True, ?decide_False by done; by rewrite ?IH.
Qed.

Lemma alter_assoc_id {A} x (g : A → A) es a :
  assoc x es = Some a → g a = a → alter_assoc x g es = es.
Proof.
  induction es as [|[y b] es IH]; simpl; [done|].
  case_decide; [intros [= ->] ->; done|]. intros ? ?. by rewrite IH.
Qed.

Lemma remove_alter_assoc {A} x (g : A → A) es :
  remove_assoc x (alter_assoc x g es) = remove_assoc x es.
Proof.
  induction es as [|[y a] es IH]; simpl; [done|].
  case_decide; simpl; rewrite ?decide_True, ?decide_False by done; by rewrite ?IH.
Qed.

Lemma assoc_remove_NoDup {A} x (es : list (string * A)) :
  NoDup es.*1 → assoc x (remove_assoc x es) = None.
Proof.
  induction es as [|[y a] es IH]; simpl; [done|].
  intros [Hy Hes]%NoDup_cons. case_decide as Hxy; simpl.
  - subst y. clear IH. induction es as [|[z b] es IH]; simpl; [done|].
    simpl in Hy. apply not_elem_of_cons in Hy as [? ?].
    rewrite decide_False by done. apply IH; [done|]. by apply NoDup_cons in Hes as [??].
  - rewrite decide_False by done. by apply IH.
Qed.

Lemma assoc_app_new {A} x (a : A) es :
  assoc x es = None → assoc x (es ++ [(x, a)]) = Some a.
Proof.
  induction es as [|[y b] es IH]; simpl.
  - by rewrite decide_True.
  - case_decide; [done|]. apply IH.
Qed.

Lemma split_last_snoc q x : split_last (q ++ [x]) = Some (q, x).
Proof. induction q as [|y q IH]; simpl; [done|]. by rewrite IH. Qed.

(** Resolving [q ++ r] resolves [q] and goes on from there. *)
Lemma stat_app q r t :
  stat (q ++ r) t
  = match stat q t with
    | Return n => stat r n
    | Raise e => Raise e
    | OutOfFuel => OutOfFuel
    end.
Proof.
  revert t. induction q as [|x q IH]; intros t; simpl; [done|].
  destruct t as [c|es]; [done|]. destruct (assoc x es); [apply IH|done].
Qed.

Lemma stat_child q x t es :
  stat q t = Return (Dir es) →
  stat (q ++ [x]) t
  = match assoc x es with Some n => Return n | None => Raise FileNotFoundError end.
Proof. intros Hq. rewrite stat_app, Hq. simpl. by destruct (assoc x es). Qed.

Lemma stat_update_dir q f t es :
  stat q t = Return (Dir es) →
  stat q (update_dir q f t) = Return (Dir (f es)).
Proof.
  revert t. induction q as [|x q IH]; intros t; simpl.
  - intros [= ->]. done.
  - destruct t as [c|es0]; [done|]. simpl. rewrite assoc_alter.
    destruct (assoc x es0) as [n|]; [|done]. simpl. apply IH.
Qed.


Lemma update_dir_set q f t es :
  stat q t = Return (Dir es) → update_dir q f t = set_dir q (f es) t.
Proof.
  unfold set_dir. revert t. induction q as [|x q IH]; intros t; simpl.
  - intros [= ->]. done.
  - destruct t as [c|es0]; [done|].
    destruct (assoc x es0) as [n|] eqn:E; [|done]. intros Hn. f_equal.
    clear -IH E Hn. induction es0 as [|[y b] es0 IH0]; simpl in *; [done|].
    case_decide; [|by rewrite IH0].
    injection E as ->. by rewrite IH.
Qed.

Lemma set_dir_set q es1 es2 t :
  set_dir q es2 (set_dir q es1 t) = set_dir q es2 t.
Proof.
  unfold set_dir. revert t. induction q as [|x q IH]; intros [c|es0]; simpl; try done.
  f_equal. rewrite alter_assoc_compose. apply alter_assoc_ext. intros a. apply IH.
Qed.

Lemma set_dir_id q es t :
  stat q t = Return (Dir es) → set_dir q es t = t.
Proof.
  unfold set_dir. revert t. induction q as [|x q IH]; intros t; simpl.
  - intros [= ->]. done.
  - destruct t as [c|es0]; [done|].
    destruct (assoc x es0) as [n|] eqn:E; [|done]. intros Hn. f_equal.
    eapply alter_assoc_id; eauto.
Qed.

Lemma stat_set_dir q es es' t :
  stat q t = Return (Dir es) → stat q (set_dir q es' t) = Return (Dir es').
Proof. intros Hq. unfold set_dir. by rewrite (stat_update_dir _ _ _ _ Hq). Qed.

(** Taking [x] out of the directory at [q] forgets whatever was done
    below [q ++ [x]]. *)
Lemma remove_after_update_below q x f t :
  update_dir q (remove_assoc x) (update_dir (q ++ [x]) f t)
  = update_dir q (remove_assoc x) t.
Proof.
  revert t. induction q as [|z q IH]; intros [c|es0]; simpl; try done.
  - by rewrite remove_alter_assoc.
  - f_equal. rewrite alter_assoc_compose. apply alter_assoc_ext. intros a. apply IH.
Qed.

End FSFacts.

(** ** Running the store's computations *)

Section StoreRuns.
Import FS Store.
Context `{Platform}.

Lemma bind_run {A B} (m : M A) (f : A → M B) w w' a :
  m w = (w', Return a) → (m ≫= f) w = f a w'.
Proof. intros Hm. unfold mbind, M_bind. by rewrite Hm. Qed.

Lemma bind_raise {A B} (m : M A) (f : A → M B) w w' e :
  m w = (w', Raise e) → (m ≫= f) w = (w', Raise e).
Proof. intros Hm. unfold mbind, M_bind. by rewrite Hm. Qed.

Lemma fs_write_run f t t' k :
  f t = Return t' → fs_write f (mkWorld t k) = (mkWorld t' k, Return tt).
Proof. intros Hf. unfold fs_write. simpl. by rewrite Hf. Qed.

Lemma fs_write_raise f t e k :
  f t = Raise e → fs_write f (mkWorld t k) = (mkWorld t k, Raise e).
Proof. intros Hf. unfold fs_write. simpl. by rewrite Hf. Qed.

Lemma height_entries es fuel :
  height (Dir es) < S fuel → Forall (λ e, height e.2 < fuel) es.
Proof.
  simpl. intros Hh. apply Forall_forall. intros e He.
  assert (height e.2 ≤ max_list (map (λ e, height e.2) es))%nat; [|lia].
  apply max_list_elem_of_le, list_elem_of_fmap. eauto.
Qed.


(** The loop of [rm_tree] over the entries [rest] still listed in the
    directory at [path] empties that directory, provided the recursive
    calls do what [rm_tree] is to do. *)
Lemma rm_tree_loop fuel path k rest :
  (∀ x t es, stat (path ++ [x]) t = Return (Dir es) → height (Dir es) < fuel →
     rm_tree fuel (path ++ [x]) (mkWorld t k)
     = (mkWorld (update_dir path (remove_assoc x) t) k, Return tt)) →
  Forall (λ e, height e.2 < fuel) rest →
  ∀ t, stat path t = Return (Dir rest) →
    for_each (map (λ e, path ++ [e.1]) rest) (rm_child fuel) (mkWorld t k)
    = (mkWorld (set_dir path [] t) k, Return tt).
Proof.
  intros IHfuel. induction 1 as [|[y n] rest Hn _ IH]; intros t Ht; simpl.
  - by rewrite (set_dir_id _ _ _ Ht).
  - assert (Hchild : stat (path ++ [y]) t = Return n).
    { rewrite (stat_child _ _ _ _ Ht). simpl. by rewrite decide_True. }
    assert (Hnext : update_dir path (remove_assoc y) t = set_dir path rest t).
    { rewrite (update_dir_set _ _ _ _ Ht). simpl. by rewrite decide_True. }
    assert (Hstep : rm_child fuel (path ++ [y]) (mkWorld t k)
                    = (mkWorld (set_dir path rest t) k, Return tt)).
    { unfold rm_child, mbind, M_bind, fs_read, path_is_file. simpl.
      rewrite Hchild. destruct n as [c|sub].
      - apply fs_write_run. unfold path_unlink.
        by rewrite Hchild, split_last_snoc, Hnext.
      - rewrite <- Hnext. by apply IHfuel with (es := sub). }
    rewrite (bind_run _ _ _ _ _ Hstep), IH.
    + by rewrite set_dir_set.
    + by apply stat_set_dir with (es := (y, n) :: rest).
Qed.

(** [rm_tree] on a directory, with fuel beyond its depth: it returns, and
    the file system is the old one with the directory's entry taken out
    of its parent. *)
Lemma rm_tree_run fuel :
  ∀ q x t es k,
    stat (q ++ [x]) t = Return (Dir es) → height (Dir es) < fuel →
    rm_tree fuel (q ++ [x]) (mkWorld t k)
    = (mkWorld (update_dir q (remove_assoc x) t) k, Return tt).
Proof.
  induction fuel as [|fuel IH]; intros q x t es k Ht Hh; [lia|].
  simpl. unfold mbind at 1, M_bind at 1, fs_read at 1. simpl.
  unfold path_glob. rewrite Ht.
  change (for_each ?l _) with (for_each l (rm_child fuel)).
  unfold mbind, M_bind.
  rewrite (rm_tree_loop fuel (q ++ [x]) k es); [| |by apply height_entries|done].
  - apply fs_write_run. unfold path_rmdir.
    rewrite (stat_set_dir _ _ _ _ Ht), split_last_snoc.
    unfold set_dir. by rewrite remove_after_update_below.
  - intros y t' es' Hy Hes'. by eapply IH.
Qed.

End StoreRuns.

Section StoreTheorems.
Import FS Store.
Context `{Platform}.

Lemma assoc_remove_ne {A} x y (es : list (string * A)) :
  y ≠ x → assoc y (remove_assoc x es) = assoc y es.
Proof.
  intros Hyx. induction es as [|[z a] es IH]; simpl; [done|].
  case_decide; simpl; [subst z; by rewrite decide_False|].
  case_decide; [done|apply IH].
Qed.

Lemma assoc_app_ne {A} x y (a : A) es :
  y ≠ x → assoc y (es ++ [(x, a)]) = assoc y es.
Proof.
  intros Hyx. induction es as [|[z b] es IH]; simpl.
  - by rewrite decide_False.
  - case_decide; [done|apply IH].
Qed.

Lemma assoc_None_not_elem {A} x (es : list (string * A)) :
  assoc x es = None → x ∉ es.*1.
Proof.
  induction es as [|[z b] es IH]; simpl; [set_solver|].
  case_decide; [done|]. intros Hx [->|Hin]%elem_of_cons; [done|]. by apply IH.
Qed.

Lemma dir_names_subseteq es : dir_names es ⊆ es.*1.
Proof.
  unfold dir_names. intros x (e & -> & He)%list_elem_of_fmap.
  apply list_elem_of_filter in He as [_ He]. apply list_elem_of_fmap. eauto.
Qed.

(** What [ls_stores] gives when the data directory is there. *)
Lemma ls_stores_listing t es :
  stat data_dir t = Return (Dir es) →
  ls_stores t = (dir_names es ++ dir_names es, Return tt).
Proof. intros Ht. unfold ls_stores, os_scandir. by rewrite Ht. Qed.

(** The sibling entries of [x] under [q] are as they were once [x] is
    taken out of [q]. *)
Lemma stat_sibling_after_remove q x y r t :
  y ≠ x →
  stat (q ++ y :: r) (update_dir q (remove_assoc x) t) = stat (q ++ y :: r) t.
Proof.
  intros Hyx. rewrite !stat_app.
  destruct (stat q t) as [[c|pes]|e|] eqn:Hq.
  - assert (update_dir q (remove_assoc x) t = t) as ->; [|by rewrite Hq].
    clear -Hq. revert t Hq. induction q as [|z q IH]; intros [c'|es0]; simpl; try done.
    destruct (assoc z es0) as [n|] eqn:E; [|done]. intros Hn. f_equal.
    eapply alter_assoc_id; eauto.
  - rewrite (stat_update_dir _ _ _ _ Hq). simpl. by rewrite assoc_remove_ne.
  - assert (stat q (update_dir q (remove_assoc x) t) = Raise e) as ->; [|done].
    clear -Hq. revert t Hq. induction q as [|z q IH]; intros [c'|es0]; simpl; try done.
    rewrite assoc_alter. destruct (assoc z es0) as [n|] eqn:E; simpl; [apply IH|done].
  - assert (stat q (update_dir q (remove_assoc x) t) = OutOfFuel) as ->; [|done].
    clear -Hq. revert t Hq. induction q as [|z q IH]; intros [c'|es0]; simpl; try done.
    rewrite assoc_alter. destruct (assoc z es0) as [n|] eqn:E; simpl; [apply IH|done].
Qed.

(** C9.  [rm_tree] on a directory at [q ++ [x]], however deep the tree
    below it: with fuel beyond the tree's depth the call returns, the
    file system it leaves is the old one with the entry [x] taken out of
    the directory at [q], the path no longer exists, and what lies beside
    it is as before.  [drop] is this call on [data_dir ++ [store_name]],
    and the store is then absent from [ls_stores]. *)
Theorem rm_tree_removes_tree (q : Path) (x : string) (t : node)
    (pes es : list (string * node)) (k fuel : nat) :
  stat q t = Return (Dir pes) → NoDup pes.*1 →
  stat (q ++ [x]) t = Return (Dir es) →
  height (Dir es) < fuel →
  ∃ t',
    rm_tree fuel (q ++ [x]) (mkWorld t k) = (mkWorld t' k, Return tt)
    ∧ t' = update_dir q (remove_assoc x) t
    ∧ path_exists (q ++ [x]) t' = false
    ∧ (∀ y r, y ≠ x → stat (q ++ y :: r) t' = stat (q ++ y :: r) t)
    ∧ (q = data_dir →
       drop fuel x (mkWorld t k) = (mkWorld t' k, Return tt)
       ∧ x ∉ (ls_stores t').1).
Proof.
  intros Hq Hnd Hx Hh. eexists. split; [by eapply rm_tree_run|].
  split; [done|].
  assert (Hq' : stat q (update_dir q (remove_assoc x) t)
                = Return (Dir (remove_assoc x pes))) by by apply stat_update_dir.
  assert (Hgone : assoc x (remove_assoc x pes) = None) by by apply assoc_remove_NoDup.
  split; [|split].
  - unfold path_exists. by rewrite (stat_child _ _ _ _ Hq'), Hgone.
  - intros y r Hy. by apply stat_sibling_after_remove.
  - intros ->. split; [unfold drop; by eapply rm_tree_run|].
    rewrite (ls_stores_listing _ _ Hq'). simpl.
    apply assoc_None_not_elem in Hgone.
    intros [Hin|Hin]%elem_of_app; by apply dir_names_subseteq in Hin.
Qed.

(** C7.  [init_store] on a name whose directory exists.  Without
    [overwrite] it raises [StoreExistsError] and the file system is as it
    was.  With [overwrite] (and fuel beyond the depth of the old store)
    it returns the slugified name and its path, the store's directory is
    now empty, and what lies beside it is as before. *)
Theorem init_store_existing (name : string) (t : node)
    (pes es : list (string * node)) (k fuel fuel' : nat) :
  stat data_dir t = Return (Dir pes) → NoDup pes.*1 →
  stat (data_dir ++ [slugify name]) t = Return (Dir es) →
  height (Dir es) < fuel →
  init_store fuel' (Some name) false (mkWorld t k)
  = (mkWorld t k, Raise StoreExistsError)
  ∧ ∃ t',
      init_store fuel (Some name) true (mkWorld t k)
      = (mkWorld t' k, Return (slugify name, data_dir ++ [slugify name]))
      ∧ stat (data_dir ++ [slugify name]) t' = Return (Dir [])
      ∧ (∀ y r, y ≠ slugify name →
           stat (data_dir ++ y :: r) t' = stat (data_dir ++ y :: r) t).
Proof.
  intros Hq Hnd Hx Hh.
  assert (Hin : assoc (slugify name) pes = Some (Dir es)).
  { rewrite (stat_child _ _ _ _ Hq) in Hx. by destruct (assoc (slugify name) pes) as [?|]; simplify_eq. }
  assert (Hmk : path_mkdir (data_dir ++ [slugify name]) t = Raise FileExistsError).
  { unfold path_mkdir. by rewrite split_last_snoc, Hq, Hin. }
  split.
  - unfold init_store, mbind, M_bind, mret, M_ret, try_except.
    rewrite (fs_write_raise _ _ _ _ Hmk). done.
  - set (t1 := update_dir data_dir (remove_assoc (slugify name)) t).
    assert (Hq1 : stat data_dir t1 = Return (Dir (remove_assoc (slugify name) pes)))
      by by apply stat_update_dir.
    assert (Hgone : assoc (slugify name) (remove_assoc (slugify name) pes) = None)
      by by apply assoc_remove_NoDup.
    set (t2 := update_dir data_dir (λ es, es ++ [(slugify name, Dir [])]) t1).
    assert (Hmk1 : path_mkdir (data_dir ++ [slugify name]) t1 = Return t2).
    { unfold path_mkdir. by rewrite split_last_snoc, Hq1, Hgone. }
    assert (Hq2 : stat data_dir t2
                  = Return (Dir (remove_assoc (slugify name) pes
                                 ++ [(slugify name, Dir [])])))
      by apply (stat_update_dir _ (λ es, es ++ [(slugify name, Dir [])]) _ _ Hq1).
    exists t2. split; [|split].
    + unfold init_store, mbind, M_bind, mret, M_ret, try_except.
      rewrite (fs_write_raise _ _ _ _ Hmk). simpl.
      rewrite (rm_tree_run fuel _ _ _ _ _ Hx Hh). fold t1.
      by rewrite (fs_write_run _ _ _ _ Hmk1).
    + rewrite (stat_child _ _ _ _ Hq2). by rewrite assoc_app_new.
    + intros y r Hy. rewrite <- (stat_sibling_after_remove _ (slugify name) y r t Hy).
      fold t1. rewrite !stat_app, Hq1, Hq2. simpl.
      by rewrite assoc_app_ne.
Qed.

(** Every round of name synthesis reads the clock once, and there are
    no more rounds than attempts. *)
Lemma synthesize_name_ticks attempts :
  ∀ w, (ticks w ≤ ticks (synthesize_name attempts w).1 ≤ ticks w + attempts)%nat.
Proof.
  induction attempts as [|n IH]; intros [t k]; simpl; [lia|].
  unfold mbind, M_bind, now, fs_read. simpl.
  destruct (gen_contains _ _) as [[|]| |]; simpl; try lia.
  specialize (IH (mkWorld t (S k))). unfold sleep, mret, M_ret. simpl in *. lia.
Qed.

(** A candidate that is the name of a store is found in the listing. *)
Lemma gen_contains_taken t es name :
  stat data_dir t = Return (Dir es) → name ∈ dir_names es →
  gen_contains name (ls_stores t) = Return true.
Proof.
  intros Ht Hin. rewrite (ls_stores_listing _ _ Ht). unfold gen_contains. simpl.
  rewrite bool_decide_eq_true_2; [done|]. apply elem_of_app. by left.
Qed.

Lemma synthesize_name_conflict attempts :
  ∀ t es k,
    stat data_dir t = Return (Dir es) →
    (∀ i, (i < attempts)%nat → strftime (clock (k + i)) ∈ dir_names es) →
    synthesize_name attempts (mkWorld t k)
    = (mkWorld t (k + attempts), Raise NameConflictError).
Proof.
  induction attempts as [|n IH]; intros t es k Ht Hall; simpl.
  - unfold raise. by rewrite Nat.add_0_r.
  - unfold mbind, M_bind, now, fs_read. simpl.
    rewrite (gen_contains_taken t es).
    + simpl. unfold sleep, mret, M_ret. rewrite (IH t es (S k) Ht).
      * do 2 f_equal. lia.
      * intros i Hi. replace (S k + i) with (k + S i) by lia. apply Hall. lia.
    + done.
    + specialize (Hall 0). rewrite Nat.add_0_r in Hall. apply Hall. lia.
Qed.

(** C6.  [init_store] without a name reads the clock at most
    [UNIQUE_STORENAME_ATTEMPTS = 3] times to make a candidate.  When the
    three candidates it makes are all names of existing stores, it raises
    [NameConflictError] after exactly three readings and the file system
    is as it was: no directory is created. *)
Theorem init_store_name_conflict (t : node) (es : list (string * node))
    (k fuel : nat) (overwrite : bool) :
  stat data_dir t = Return (Dir es) →
  (∀ i, (i < 3)%nat → strftime (clock (k + i)) ∈ dir_names es) →
  UNIQUE_STORENAME_ATTEMPTS = 3
  ∧ (∀ w, (ticks (synthesize_name UNIQUE_STORENAME_ATTEMPTS w).1 ≤ ticks w + 3)%nat)
  ∧ init_store fuel None overwrite (mkWorld t k)
    = (mkWorld t (k + 3), Raise NameConflictError).
Proof.
  intros Ht Hall. split; [done|]. split.
  - intros w. apply synthesize_name_ticks.
  - unfold init_store. apply bind_raise.
    by apply synthesize_name_conflict with (es := es).
Qed.



(** When the data directory is missing, the first loop of [ls_stores]
    fails before anything is yielded. *)
Lemma ls_stores_no_data_dir t :
  stat data_dir t = Raise FileNotFoundError →
  ls_stores t = ([], Raise FileNotFoundError).
Proof. intros Ht. unfold ls_stores, os_scandir. by rewrite Ht. Qed.

(** A read transaction on a store directory without results file fails
    at [open(results_path, "rb")], before the block runs. *)
Lemma open_results_read_missing {A} store_name (body : pyobj → pyobj * outcome A)
    w es :
  stat (data_dir ++ [store_name]) (fs w) = Return (Dir es) →
  assoc RESULTS_FNAME es = None →
  open_results store_name false body w = (w, Raise FileNotFoundError).
Proof.
  intros Hs Hf.
  assert (Hr : stat ((data_dir ++ [store_name]) ++ [RESULTS_FNAME]) (fs w)
               = Raise FileNotFoundError).
  { by rewrite (stat_child _ _ _ _ Hs), Hf. }
  unfold open_results, mbind, M_bind, fs_read, path_exists, open_rb.
  rewrite Hr. simpl. by rewrite Hr.
Qed.

(** A write transaction whose block raises leaves the results file with
    zero bytes, whatever it held, and the next read transaction gets the
    empty mapping. *)
Lemma open_results_failed_write {A} store_name
    (body : pyobj → pyobj * outcome A) t k es old new e :
  stat (data_dir ++ [store_name]) t = Return (Dir es) →
  assoc RESULTS_FNAME es = Some (File (Some old)) →
  body old = (new, Raise e) →
  ∃ t',
    open_results store_name true body (mkWorld t k) = (mkWorld t' k, Raise e)
    ∧ stat (data_dir ++ [store_name; RESULTS_FNAME]) t' = Return (File None)
    ∧ read_results store_name (mkWorld t' k) = (mkWorld t' k, Return (Dict [])).
Proof.
  intros Hs Hf Hb.
  assert (Hp : (data_dir ++ [store_name]) ++ [RESULTS_FNAME]
               = data_dir ++ [store_name; RESULTS_FNAME]) by by rewrite <- app_assoc.
  assert (Hr : stat ((data_dir ++ [store_name]) ++ [RESULTS_FNAME]) t
               = Return (File (Some old))).
  { by rewrite (stat_child _ _ _ _ Hs), Hf. }
  set (t' := update_dir (data_dir ++ [store_name])
               (alter_assoc RESULTS_FNAME (λ _, File None)) t).
  assert (Hs' : stat (data_dir ++ [store_name]) t'
                = Return (Dir (alter_assoc RESULTS_FNAME (λ _, File None) es)))
    by by apply stat_update_dir.
  assert (Hr' : stat ((data_dir ++ [store_name]) ++ [RESULTS_FNAME]) t'
                = Return (File None)).
  { by rewrite (stat_child _ _ _ _ Hs'), assoc_alter, Hf. }
  exists t'. split; [|split].
  - unfold open_results, mbind, M_bind, fs_read, path_exists, open_rb, try_except.
    simpl. rewrite Hr. simpl. rewrite Hr. simpl.
    assert (Hw : open_wb ((data_dir ++ [store_name]) ++ [RESULTS_FNAME]) t
                 = Return t').
    { unfold open_wb. by rewrite split_last_snoc, Hs, Hf. }
    rewrite (fs_write_run _ _ _ _ Hw), Hb. done.
  - by rewrite <- Hp.
  - unfold read_results, open_results, mbind, M_bind, mret, M_ret, fs_read,
      path_exists, open_rb, try_except.
    repeat first [rewrite Hr' | progress simpl]. done.
Qed.

End StoreTheorems.

(** ** The theorems on sample stores *)

Section StoreSamples.
Import FS Store.
#[local] Existing Instance sample_platform.

Lemma rm_tree_removes_tree_witness :
  ∃ t',
    rm_tree 5 (data_dir ++ ["other"]) (mkWorld sample_fs 0)
    = (mkWorld t' 0, Return tt)
    ∧ t' = in_data_dir [("demo", sample_store); ("notes.txt", File None)]
    ∧ path_exists (data_dir ++ ["other"]) t' = false
    ∧ drop 5 "other" (mkWorld sample_fs 0) = (mkWorld t' 0, Return tt)
    ∧ "other" ∉ (ls_stores t').1.
Proof.
  assert (Hq : stat data_dir sample_fs
               = Return (Dir [("demo", sample_store); ("other", nested_store);
                              ("notes.txt", File None)])) by reflexivity.
  assert (Hnd : NoDup ([("demo", sample_store); ("other", nested_store);
                        ("notes.txt", File None)].*1)) by compute_done.
  assert (Hx : stat (data_dir ++ ["other"]) sample_fs
               = Return (Dir [("series.pickle", File (Some sample_series));
                              ("plots", Dir [("a.png", File None);
                                             ("old", Dir [("b.png", File None);
                                                          ("deep", Dir [])])]);
                              ("results.pickle", File None)])) by reflexivity.
  assert (Hh : height nested_store < 5) by (vm_compute; lia).
  destruct (rm_tree_removes_tree data_dir "other" sample_fs _ _ 0 5 Hq Hnd Hx Hh)
    as (t' & Hrun & Ht' & Hgone & _ & Hdrop).
  exists t'. destruct (Hdrop eq_refl) as [Hd Hls].
  repeat split; assumption.
Defined.

Lemma init_store_existing_witness :
  init_store 0 (Some "demo") false (mkWorld sample_fs 0)
  = (mkWorld sample_fs 0, Raise StoreExistsError)
  ∧ ∃ t',
      init_store 2 (Some "demo") true (mkWorld sample_fs 0)
      = (mkWorld t' 0, Return ("demo", data_dir ++ ["demo"]))
      ∧ stat (data_dir ++ ["demo"]) t' = Return (Dir [])
      ∧ (∀ y r, y ≠ "demo" →
           stat (data_dir ++ y :: r) t' = stat (data_dir ++ y :: r) sample_fs).
Proof.
  refine (init_store_existing "demo" sample_fs
            [("demo", sample_store); ("other", nested_store);
             ("notes.txt", File None)]
            [("series.pickle", File (Some sample_series));
             ("results.pickle", File (Some sample_results))] 0 2 0 _ _ _ _).
  - reflexivity.
  - compute_done.
  - reflexivity.
  - vm_compute. lia.
Defined.

Lemma init_store_name_conflict_witness :
  UNIQUE_STORENAME_ATTEMPTS = 3
  ∧ (∀ w, (ticks (synthesize_name UNIQUE_STORENAME_ATTEMPTS w).1 ≤ ticks w + 3)%nat)
  ∧ init_store 0 None false (mkWorld crowded_fs 0)
    = (mkWorld crowded_fs 3, Raise NameConflictError).
Proof.
  apply (init_store_name_conflict crowded_fs
           [("20200101T000000Z", Dir []); ("20200101T000001Z", Dir []);
            ("20200101T000003Z", Dir [])] 0 0 false).
  - reflexivity.
  - intros i Hi. destruct i as [|[|[|i]]]; [| | |lia];
      compute_done.
Defined.




(** C4, on the code.  With the data directory gone, [ls_stores] yields
    nothing and ends with [FileNotFoundError]: the first loop runs
    outside the [try] that guards the second. *)
Theorem ls_stores_without_data_dir_raises :
  stat data_dir no_data_dir_fs = Raise FileNotFoundError
  ∧ ls_stores no_data_dir_fs = ([], Raise FileNotFoundError)
  ∧ gen_contains "demo" (ls_stores no_data_dir_fs) = Raise FileNotFoundError.
Proof. repeat split. Qed.

(** C3, on the code.  The store's directory exists and holds no results
    file; the read transaction raises [FileNotFoundError] instead of
    handing the block an empty mapping. *)
Theorem read_without_results_raises :
  stat (data_dir ++ ["demo"]) bare_fs = Return (Dir [])
  ∧ read_results "demo" (mkWorld bare_fs 0)
    = (mkWorld bare_fs 0, Raise FileNotFoundError).
Proof. split; reflexivity. Qed.

(** C1, on the code.  The store holds a results mapping with one entry.
    A write transaction whose block adds an entry and raises ends with
    that exception and leaves the results file with zero bytes; the next
    read transaction returns the empty mapping, not the mapping that was
    stored. *)
Theorem failed_write_loses_results :
  let w := mkWorld sample_fs 0 in
  let w' := (open_results "demo" true failing_block w).1 in
  read_results "demo" w = (w, Return sample_results)
  ∧ (open_results "demo" true failing_block w).2 = Raise (UserError 0)
  ∧ stat (data_dir ++ ["demo"; RESULTS_FNAME]) (fs w') = Return (File None)
  ∧ read_results "demo" w' = (w', Return (Dict []))
  ∧ sample_results ≠ Dict [].
Proof. repeat split; try (vm_compute; reflexivity). discriminate. Qed.

End StoreSamples.

(** ** More on resolution and updates *)

Section FSMore.
Import FS.

Lemma assoc_alter_ne {A} x y (g : A → A) es :
  x ≠ y → assoc y (alter_assoc x g es) = assoc y es.
Proof.
  intros Hxy. induction es as [|[k b] es IH]; simpl; [done|].
  case_decide; simpl; [subst k; by rewrite !decide_False by done|].
  case_decide; [done|apply IH].
Qed.

Lemma alter_assoc_same {A} x (g : A → A) es :
  (∀ a, g a = a) → alter_assoc x g es = es.
Proof.
  intros Hg. induction es as [|[y a] es IH]; simpl; [done|].
  case_decide; by rewrite ?Hg, ?IH.
Qed.

Lemma update_dir_same q f t :
  (∀ es, f es = es) → update_dir q f t = t.
Proof.
  intros Hf. revert t. induction q as [|x q IH]; intros [c|es]; simpl; try done.
  - by rewrite Hf.
  - f_equal. by apply alter_assoc_same.
Qed.

Lemma update_dir_compose q g f t :
  update_dir q g (update_dir q f t) = update_dir q (g ∘ f) t.
Proof.
  revert t. induction q as [|x q IH]; intros [c|es]; simpl; try done.
  f_equal. rewrite alter_assoc_compose. apply alter_assoc_ext. intros a. apply IH.
Qed.

(** Resolving a prefix of the updated path gives the old node with the
    rest of the update done inside it. *)
Lemma stat_update_dir_prefix q r f t :
  stat q (update_dir (q ++ r) f t)
  = match stat q t with
    | Return n => Return (update_dir r f n)
    | o => o
    end.
Proof.
  revert t. induction q as [|x q IH]; intros t; simpl; [by destruct t|].
  destruct t as [c|es]; [done|]. simpl. rewrite assoc_alter.
  destruct (assoc x es) as [n|]; simpl; [apply IH|done].
Qed.

(** An update below [q ++ [x]] is not seen from a sibling of [x]. *)
Lemma stat_update_dir_sibling q x r f y p t :
  x ≠ y →
  stat (q ++ y :: p) (update_dir (q ++ x :: r) f t) = stat (q ++ y :: p) t.
Proof.
  intros Hxy. rewrite !stat_app, stat_update_dir_prefix.
  destruct (stat q t) as [[c|es]|e|]; simpl; try done.
  by rewrite assoc_alter_ne.
Qed.

Lemma dir_names_alter x (g : node → node) es :
  (∀ n, is_dir_node (g n) = is_dir_node n) →
  Store.dir_names (alter_assoc x g es) = Store.dir_names es.
Proof.
  intros Hg. unfold Store.dir_names.
  induction es as [|[y n] es IH]; simpl; [done|].
  case_decide.
  - rewrite !filter_cons. simpl. rewrite Hg.
    destruct (is_dir_node n); simpl; done.
  - rewrite !filter_cons. simpl. destruct (is_dir_node n); simpl; by rewrite IH.
Qed.

End FSMore.

(** ** Results transactions *)

Section Transactions.
Import FS Store Loading.
Context `{Platform}.

(** The loading step of a transaction on a store directory whose results
    entry is not a directory: the block gets [stored_results es]. *)
Lemma open_results_loaded {A} name write (body : pyobj → pyobj * outcome A)
    t k es :
  stat (data_dir ++ [name]) t = Return (Dir es) →
  (∀ sub, assoc RESULTS_FNAME es ≠ Some (Dir sub)) →
  open_results name write body (mkWorld t k)
  = (if write then
       fs_write (open_wb ((data_dir ++ [name]) ++ [RESULTS_FNAME]));;
       match body (stored_results es) with
       | (results', Return a) =>
           fs_write (write_pickle ((data_dir ++ [name]) ++ [RESULTS_FNAME])
                       results');;
           mret a
       | (_, Raise e) => raise e
       | (_, OutOfFuel) => out_of_fuel
       end
     else
       fs_read (open_rb ((data_dir ++ [name]) ++ [RESULTS_FNAME])) ≫= λ _,
       match body (stored_results es) with
       | (_, Return a) => mret a
       | (_, Raise e) => raise e
       | (_, OutOfFuel) => out_of_fuel
       end) (mkWorld t k).
Proof.
  intros Hs Hnd. unfold open_results.
  assert (Hr : stat ((data_dir ++ [name]) ++ [RESULTS_FNAME]) t
               = match assoc RESULTS_FNAME es with
                 | Some n => Return n
                 | None => Raise FileNotFoundError
                 end) by by apply stat_child.
  etrans; [apply bind_run; reflexivity|].
  etrans; [apply (bind_run _ _ _ (mkWorld t k) (stored_results es))|reflexivity].
  unfold path_exists, stored_results. simpl. rewrite Hr.
  destruct (assoc RESULTS_FNAME es) as [[[o|]|sub]|] eqn:Hf; simpl.
  - unfold mbind, M_bind, fs_read, try_except, open_rb. simpl. by rewrite Hr.
  - unfold mbind, M_bind, fs_read, try_except, open_rb. simpl. by rewrite Hr.
  - by destruct (Hnd sub).
  - done.
Qed.

Lemma assoc_dict_set {A} k (v : A) d : assoc k (dict_set k v d) = Some v.
Proof.
  induction d as [|[k' v'] d IH]; simpl.
  - by rewrite decide_True.
  - case_decide; simpl; [by rewrite decide_True|by rewrite decide_False].
Qed.

Lemma assoc_dict_set_ne {A} k k' (v : A) d :
  k' ≠ k → assoc k' (dict_set k v d) = assoc k' d.
Proof.
  intros Hk. induction d as [|[k0 v0] d IH]; simpl.
  - by rewrite decide_False.
  - case_decide; simpl; [subst k0; by rewrite !decide_False|].
    case_decide; [done|apply IH].
Qed.

Lemma dict_set_set {A} k (v1 v2 : A) d :
  dict_set k v2 (dict_set k v1 d) = dict_set k v2 d.
Proof.
  induction d as [|[k' v'] d IH]; simpl.
  - by rewrite decide_True.
  - case_decide; simpl; [by rewrite decide_True|].
    by rewrite decide_False, IH.
Qed.

Lemma dict_set_alter {A} k (v : A) (g : A → A) d a :
  assoc k d = Some a → g a = v → alter_assoc k g d = dict_set k v d.
Proof.
  induction d as [|[k' v'] d IH]; simpl; [done|].
  case_decide; [intros [= ->] <-; by subst|]. intros ? ?. by rewrite IH.
Qed.

Lemma dict_set_new {A} k (v : A) d :
  assoc k d = None → dict_set k v d = d ++ [(k, v)].
Proof.
  induction d as [|[k' v'] d IH]; simpl; [done|].
  case_decide; [done|]. intros ?. by rewrite IH.
Qed.

Lemma alter_assoc_new {A} k (g : A → A) d a :
  assoc k d = None → alter_assoc k g (d ++ [(k, a)]) = d ++ [(k, g a)].
Proof.
  induction d as [|[k' v'] d IH]; simpl.
  - by rewrite decide_True.
  - case_decide; [done|]. intros ?. by rewrite IH.
Qed.

(** The file system a committed write transaction leaves: the store's
    directory with the results entry set to the new pickle. *)
Lemma open_results_commit {A} name (body : pyobj → pyobj * outcome A)
    t k es new a :
  stat (data_dir ++ [name]) t = Return (Dir es) →
  (∀ sub, assoc RESULTS_FNAME es ≠ Some (Dir sub)) →
  body (stored_results es) = (new, Return a) →
  open_results name true body (mkWorld t k)
  = (mkWorld (set_dir (data_dir ++ [name])
                (dict_set RESULTS_FNAME (File (Some new)) es) t) k,
     Return a).
Proof.
  intros Hs Hnd Hb.
  set (sp := data_dir ++ [name]) in *.
  set (put := λ n : node, match n with
                          | File _ => File (Some new)
                          | Dir es => Dir es
                          end).
  assert (∃ es1, open_wb (sp ++ [RESULTS_FNAME]) t = Return (set_dir sp es1 t)
                 ∧ alter_assoc RESULTS_FNAME put es1
                   = dict_set RESULTS_FNAME (File (Some new)) es)
    as (es1 & Hw & Hes1).
  { unfold open_wb. rewrite split_last_snoc, Hs.
    destruct (assoc RESULTS_FNAME es) as [[c|sub]|] eqn:Hf.
    - eexists. split; [by rewrite (update_dir_set _ _ _ _ Hs)|].
      rewrite alter_assoc_compose.
      by apply dict_set_alter with (a := File c).
    - by destruct (Hnd sub).
    - eexists. split; [by rewrite (update_dir_set _ _ _ _ Hs)|].
      by rewrite (dict_set_new _ _ _ Hf), (alter_assoc_new _ _ _ _ Hf). }
  rewrite (open_results_loaded _ _ _ _ _ _ Hs Hnd), Hb.
  unfold mbind, M_bind. rewrite (fs_write_run _ _ _ _ Hw).
  assert (Hwp : write_pickle (sp ++ [RESULTS_FNAME]) new (set_dir sp es1 t)
                = Return (set_dir sp
                            (dict_set RESULTS_FNAME (File (Some new)) es) t)).
  { unfold write_pickle. rewrite split_last_snoc.
    rewrite (update_dir_set _ _ _ es1) by by apply (stat_set_dir _ es).
    unfold put in Hes1. by rewrite set_dir_set, Hes1. }
  by rewrite (fs_write_run _ _ _ _ Hwp).
Qed.

Lemma stored_results_dict_set es new :
  stored_results (dict_set RESULTS_FNAME (File (Some new)) es) = new.
Proof. unfold stored_results. by rewrite assoc_dict_set. Qed.

(** What the next read transaction hands out after a commit. *)
Lemma read_results_after_commit name t k es new :
  stat (data_dir ++ [name]) t = Return (Dir es) →
  let t' := set_dir (data_dir ++ [name])
              (dict_set RESULTS_FNAME (File (Some new)) es) t in
  read_results name (mkWorld t' k) = (mkWorld t' k, Return new).
Proof.
  intros Hs t'.
  assert (Hs' : stat (data_dir ++ [name]) t'
                = Return (Dir (dict_set RESULTS_FNAME (File (Some new)) es)))
    by by apply (stat_set_dir _ es).
  unfold read_results. rewrite (open_results_loaded _ false _ _ _ _ Hs').
  - unfold mbind, M_bind, fs_read, open_rb. simpl.
    rewrite (stat_child _ _ _ _ Hs'), assoc_dict_set.
    by rewrite stored_results_dict_set.
  - intros sub. by rewrite assoc_dict_set.
Qed.

(** X1.  A write transaction on a store directory whose block returns:
    the transaction returns what the block returned, the results file
    then holds the mapping as the block left it, and the next read
    transaction hands out exactly that mapping.  The results file may
    have been missing, empty or filled before. *)
Theorem write_then_read {A} (name : string)
    (body : pyobj → pyobj * outcome A) (t : node) (k : nat)
    (es : list (string * node)) (new : pyobj) (a : A) :
  stat (data_dir ++ [name]) t = Return (Dir es) →
  (∀ sub, assoc RESULTS_FNAME es ≠ Some (Dir sub)) →
  body (stored_results es) = (new, Return a) →
  ∃ t',
    open_results name true body (mkWorld t k) = (mkWorld t' k, Return a)
    ∧ stat (data_dir ++ [name; RESULTS_FNAME]) t' = Return (File (Some new))
    ∧ read_results name (mkWorld t' k) = (mkWorld t' k, Return new).
Proof.
  intros Hs Hnd Hb. eexists. split; [by apply open_results_commit|]. split.
  - replace (data_dir ++ [name; RESULTS_FNAME])
      with ((data_dir ++ [name]) ++ [RESULTS_FNAME]) by by rewrite <- app_assoc.
    rewrite (stat_child _ _ _ (dict_set RESULTS_FNAME (File (Some new)) es)).
    + by rewrite assoc_dict_set.
    + by apply (stat_set_dir _ es).
  - by apply read_results_after_commit.
Qed.

(** X2.  A read transaction writes nothing back.  For a block that works
    on the mapping it is handed and does not itself touch the file system
    or the clock: whatever the world and the store name, however the
    block changes the mapping and however it ends, the file system and
    the clock are after the transaction as they were before. *)
Theorem read_transaction_changes_nothing {A} (name : string)
    (body : pyobj → pyobj * outcome A) (w : world) :
  (open_results name false body w).1 = w.
Proof.
  unfold open_results, mbind, M_bind, mret, M_ret, fs_read, try_except,
    raise, out_of_fuel.
  repeat (simpl; case_match; simplify_eq; try done).
Qed.

(** X3.  A read transaction on a store directory that has a results file
    hands the block the pickled mapping, or the empty mapping when the
    file has zero bytes, and ends as the block ends. *)
Theorem read_transaction_yields (name : string) (w : world)
    (es : list (string * node)) (c : content) :
  stat (data_dir ++ [name]) (fs w) = Return (Dir es) →
  assoc RESULTS_FNAME es = Some (File c) →
  read_results name w = (w, Return (default (Dict []) c))
  ∧ ∀ A (body : pyobj → pyobj * outcome A),
      open_results name false body w = (w, (body (default (Dict []) c)).2).
Proof.
  intros Hs Hf. destruct w as [t k]. simpl in Hs.
  assert (Hnd : ∀ sub, assoc RESULTS_FNAME es ≠ Some (Dir sub))
    by (intros sub; by rewrite Hf).
  assert (Hl : stored_results es = default (Dict []) c).
  { unfold stored_results. rewrite Hf. by destruct c. }
  assert (Hgen : ∀ A (body : pyobj → pyobj * outcome A),
    open_results name false body (mkWorld t k)
    = (mkWorld t k, (body (default (Dict []) c)).2)).
  { intros A body. rewrite (open_results_loaded _ false _ _ _ _ Hs Hnd), Hl.
    unfold mbind, M_bind, fs_read, open_rb. simpl.
    rewrite (stat_child _ _ _ _ Hs), Hf.
    by destruct (body _) as [r [a|e|]]. }
  split; [|done]. unfold read_results. by rewrite Hgen.
Qed.

Lemma open_results_no_store {A} name write (body : pyobj → pyobj * outcome A) w :
  stat (data_dir ++ [name]) (fs w) = Raise FileNotFoundError →
  open_results name write body w = (w, Raise FileNotFoundError).
Proof.
  intros Hs. destruct w as [t k]. simpl in Hs.
  assert (Hr : stat ((data_dir ++ [name]) ++ [RESULTS_FNAME]) t
               = Raise FileNotFoundError) by by rewrite stat_app, Hs.
  unfold open_results.
  etrans; [apply bind_run; reflexivity|].
  unfold path_exists. simpl. rewrite Hr. simpl.
  etrans; [apply bind_run; reflexivity|].
  destruct write; apply bind_raise.
  - apply fs_write_raise. unfold open_wb. by rewrite split_last_snoc, Hs.
  - unfold fs_read, open_rb. simpl. by rewrite Hr.
Qed.

(** X4.  A transaction on a store name that is one path component and
    for which the data directory has no entry raises [FileNotFoundError]
    in either mode; the block is not run and nothing is created. *)
Theorem transaction_without_store {A} (name : string) (write : bool)
    (body : pyobj → pyobj * outcome A) (w : world) :
  component name = true →
  stat (data_dir ++ [name]) (fs w) = Raise FileNotFoundError →
  open_results name write body w = (w, Raise FileNotFoundError).
Proof. intros _. apply open_results_no_store. Qed.

Lemma bind_ext {A B} (m : M A) (f g : A → M B) w :
  (∀ a w', f a w' = g a w') → (m ≫= f) w = (m ≫= g) w.
Proof.
  intros Hfg. unfold mbind, M_bind. by destruct (m w) as [w' [a|e|]].
Qed.

(** A transaction uses its block only through the block's results. *)
Lemma open_results_ext {A} name write (body body' : pyobj → pyobj * outcome A) w :
  (∀ obj, body obj = body' obj) →
  open_results name write body w = open_results name write body' w.
Proof.
  intros Hb. unfold open_results.
  apply bind_ext. intros found w1. apply bind_ext. intros results w2.
  destruct write; apply bind_ext; intros ? w3; by rewrite Hb.
Qed.

Lemma filed_app rs1 rs2 d : filed (rs1 ++ rs2) d = filed rs2 (filed rs1 d).
Proof. unfold filed. by rewrite foldl_app. Qed.

(** Which result a key has after [load_results]: that of the last result
    of that class in the collection, and the old one when there is none. *)
Lemma assoc_filed rs : ∀ d key,
  assoc key (filed rs d)
  = match list_find (λ r, class_name r = key) (reverse rs) with
    | Some (_, r) => Some (pickled r)
    | None => assoc key d
    end.
Proof.
  induction rs as [|r rs IH] using rev_ind; intros d key; [done|].
  rewrite filed_app, reverse_app.
  change (filed [r] (filed rs d))
    with (dict_set (class_name r) (pickled r) (filed rs d)).
  change (reverse [r] ++ reverse rs) with (r :: reverse rs).
  cbn [list_find]. case_decide as Hk.
  - subst key. by rewrite assoc_dict_set.
  - rewrite assoc_dict_set_ne by done. rewrite IH.
    by destruct (list_find _ (reverse rs)) as [[i r']|].
Qed.

Lemma assoc_filed_other rs d key :
  (∀ r, r ∈ rs → class_name r ≠ key) → assoc key (filed rs d) = assoc key d.
Proof.
  intros Hkey. rewrite assoc_filed.
  destruct (list_find _ (reverse rs)) as [[i r']|] eqn:Hfind; [|done].
  apply list_find_Some in Hfind as (Hi & Hc & _).
  apply list_elem_of_lookup_2 in Hi. rewrite elem_of_reverse in Hi.
  by destruct (Hkey r' Hi).
Qed.

Lemma load_results_commit name rs t k es d :
  stat (data_dir ++ [name]) t = Return (Dir es) →
  (∀ sub, assoc RESULTS_FNAME es ≠ Some (Dir sub)) →
  stored_results es = Dict d →
  load_results name rs (mkWorld t k)
  = (mkWorld (set_dir (data_dir ++ [name])
                (dict_set RESULTS_FNAME (File (Some (Dict (filed rs d)))) es) t) k,
     Return tt).
Proof.
  intros Hs Hnd Hd. unfold load_results.
  apply open_results_commit; [done|done|]. by rewrite Hd.
Qed.

(** X5.  [load_results] on a store directory whose results file is
    missing, empty or holds a mapping [d]: it returns, and the next read
    transaction hands out [d] with the results filed under their class
    names.  Under each class name sits the last result of that class in
    the collection: every result that no later result of the collection
    shares its class name with is what its class name maps to.  A name
    that no result of the collection has keeps what [d] had for it. *)
Theorem load_results_files_by_class (name : string) (rs : list result_obj)
    (t : node) (k : nat) (es : list (string * node))
    (d : list (string * result)) :
  stat (data_dir ++ [name]) t = Return (Dir es) →
  (∀ sub, assoc RESULTS_FNAME es ≠ Some (Dir sub)) →
  stored_results es = Dict d →
  ∃ t' d',
    load_results name rs (mkWorld t k) = (mkWorld t' k, Return tt)
    ∧ read_results name (mkWorld t' k) = (mkWorld t' k, Return (Dict d'))
    ∧ (∀ rs1 r rs2, rs = rs1 ++ r :: rs2 →
         (∀ r', r' ∈ rs2 → class_name r' ≠ class_name r) →
         assoc (class_name r) d' = Some (pickled r))
    ∧ (∀ r, r ∈ rs →
         ∃ r', r' ∈ rs ∧ class_name r' = class_name r
               ∧ assoc (class_name r) d' = Some (pickled r'))
    ∧ (∀ key, (∀ r, r ∈ rs → class_name r ≠ key) → assoc key d' = assoc key d).
Proof.
  intros Hs Hnd Hd. eexists _, (filed rs d).
  split; [by apply load_results_commit|].
  split; [by apply read_results_after_commit|].
  split; [|split].
  - intros rs1 r rs2 -> Hlast.
    rewrite filed_app. change (r :: rs2) with ([r] ++ rs2).
    rewrite filed_app, (assoc_filed_other _ _ _ Hlast).
    apply assoc_dict_set.
  - intros r Hr. rewrite assoc_filed.
    destruct (list_find _ (reverse rs)) as [[i r']|] eqn:Hfind.
    + apply list_find_Some in Hfind as (Hi & Hc & _).
      exists r'. split; [|done].
      apply list_elem_of_lookup_2 in Hi. by apply elem_of_reverse.
    + apply list_find_None in Hfind.
      rewrite Forall_forall in Hfind.
      destruct (Hfind r); [by apply elem_of_reverse|done].
  - intros key Hkey. by apply assoc_filed_other.
Qed.

(** X6.  [load_result] is [load_results] on the one result, in every
    world; and on a store directory whose results file is missing, empty
    or holds a mapping, filing two collections one after the other leaves
    the world that filing them at once leaves. *)
Theorem load_results_in_steps (name : string) (rs1 rs2 : list result_obj)
    (t : node) (k : nat) (es : list (string * node))
    (d : list (string * result)) :
  stat (data_dir ++ [name]) t = Return (Dir es) →
  (∀ sub, assoc RESULTS_FNAME es ≠ Some (Dir sub)) →
  stored_results es = Dict d →
  (∀ r w, load_result name r w = load_results name [r] w)
  ∧ (load_results name rs1;; load_results name rs2) (mkWorld t k)
    = load_results name (rs1 ++ rs2) (mkWorld t k).
Proof.
  intros Hs Hnd Hd. split.
  - intros r w. apply open_results_ext. by intros [n v|d0].
  - rewrite (load_results_commit _ (rs1 ++ rs2) _ _ _ _ Hs Hnd Hd).
    unfold mbind, M_bind.
    rewrite (load_results_commit _ rs1 _ _ _ _ Hs Hnd Hd).
    set (v1 := File (Some (Dict (filed rs1 d)))).
    rewrite (load_results_commit _ rs2 _ _
               (dict_set RESULTS_FNAME v1 es) (filed rs1 d)).
    + by rewrite set_dir_set, dict_set_set, filed_app.
    + by apply (stat_set_dir _ es).
    + intros sub. by rewrite assoc_dict_set.
    + apply stored_results_dict_set.
Qed.

Lemma get_data_run store_name w :
  get_data store_name w
  = (w, match stat (data_dir ++ [store_name]) (fs w) with
        | Return (Dir es) =>
            match assoc PROFILED_DATA_FNAME es with
            | None => Raise DataNotFoundError
            | Some (File c) => pickle_load c
            | Some (Dir _) => Raise IsADirectoryError
            end
        | Return (File _) => Raise NotADirectoryError
        | _ => Raise StoreNotFoundError
        end).
Proof.
  unfold get_data, mbind, M_bind, fs_read, path_exists.
  destruct (stat (data_dir ++ [store_name]) (fs w)) as [[c|es]|e|] eqn:Hs;
    simpl; try done; unfold try_except, open_rb.
  - by rewrite stat_app, Hs.
  - rewrite (stat_child _ _ _ _ Hs).
    destruct (assoc PROFILED_DATA_FNAME es) as [[[o|]|sub]|]; done.
Qed.

Lemma rewrites_only_pure {A} dir entry (m : M A) :
  (∀ w, (m w).1 = w) → rewrites_only dir entry m.
Proof.
  intros Hm w. exists (λ es, es). rewrite Hm.
  by rewrite update_dir_same.
Qed.

Lemma rewrites_only_bind {A B} dir entry (m : M A) (f : A → M B) :
  rewrites_only dir entry m → (∀ a, rewrites_only dir entry (f a)) →
  rewrites_only dir entry (m ≫= f).
Proof.
  intros Hm Hf w. destruct (Hm w) as (g1 & Hfs1 & Hk1 & Hg1).
  unfold mbind, M_bind. destruct (m w) as [w1 [a|e|]]; simpl in *;
    [|by exists g1..].
  destruct (Hf a w1) as (g2 & Hfs2 & Hk2 & Hg2).
  exists (g2 ∘ g1). rewrite Hfs2, Hfs1, update_dir_compose.
  split; [done|]. split; [congruence|].
  intros es y Hy. simpl. by rewrite Hg2, Hg1.
Qed.

Lemma rewrites_only_try {A} dir entry (m h : M A) cls :
  rewrites_only dir entry m → rewrites_only dir entry h →
  rewrites_only dir entry (try_except m cls h).
Proof.
  intros Hm Hh w. destruct (Hm w) as (g1 & Hfs1 & Hk1 & Hg1).
  unfold try_except. destruct (m w) as [w1 [a|e|]]; simpl in *;
    [by exists g1| |by exists g1].
  destruct (isinstance e cls); [|by exists g1].
  destruct (Hh w1) as (g2 & Hfs2 & Hk2 & Hg2).
  exists (g2 ∘ g1). rewrite Hfs2, Hfs1, update_dir_compose.
  split; [done|]. split; [congruence|].
  intros es y Hy. simpl. by rewrite Hg2, Hg1.
Qed.

Lemma rewrites_only_fs_write dir entry f :
  (∀ t, ∃ g, match f t with Return t' => t' | _ => t end = update_dir dir g t
            ∧ ∀ es y, y ≠ entry → assoc y (g es) = assoc y es) →
  rewrites_only dir entry (fs_write f).
Proof.
  intros Hf [t k]. destruct (Hf t) as (g & Hg & Hgood). exists g.
  unfold fs_write. simpl. by destruct (f t).
Qed.

Lemma rewrites_only_open_wb dir entry :
  rewrites_only dir entry (fs_write (open_wb (dir ++ [entry]))).
Proof.
  apply rewrites_only_fs_write. intros t. unfold open_wb.
  rewrite split_last_snoc.
  assert (Hid : ∃ g, t = update_dir dir g t
                   ∧ ∀ es y, y ≠ entry → assoc y (g es) = assoc y es).
  { exists (λ es, es). by rewrite update_dir_same. }
  destruct (stat dir t) as [[c|es]|e|]; try done.
  destruct (assoc entry es) as [[c|sub]|]; try done.
  - eexists. split; [done|]. intros es0 y Hy. by apply assoc_alter_ne.
  - eexists. split; [done|]. intros es0 y Hy. by apply assoc_app_ne.
Qed.

Lemma rewrites_only_write_pickle dir entry obj :
  rewrites_only dir entry (fs_write (write_pickle (dir ++ [entry]) obj)).
Proof.
  apply rewrites_only_fs_write. intros t. unfold write_pickle.
  rewrite split_last_snoc. eexists. split; [done|].
  intros es0 y Hy. by apply assoc_alter_ne.
Qed.

(** All a transaction does to the world is rewrite the entries of its
    store's directory, and of those only the results entry. *)
Lemma open_results_effect {A} name write (body : pyobj → pyobj * outcome A) :
  rewrites_only (data_dir ++ [name]) RESULTS_FNAME
    (open_results name write body).
Proof.
  unfold open_results.
  apply rewrites_only_bind; [by apply rewrites_only_pure|]. intros found.
  apply rewrites_only_bind.
  { destruct (negb found); [by apply rewrites_only_pure|].
    apply rewrites_only_bind; [by apply rewrites_only_pure|]. intros f.
    apply rewrites_only_try; by apply rewrites_only_pure. }
  intros results. destruct write.
  - apply rewrites_only_bind; [apply rewrites_only_open_wb|]. intros _.
    destruct (body results) as [results' [a|e|]];
      [|by apply rewrites_only_pure..].
    apply rewrites_only_bind; [apply rewrites_only_write_pickle|]. intros _.
    by apply rewrites_only_pure.
  - apply rewrites_only_bind; [by apply rewrites_only_pure|]. intros _.
    destruct (body results) as [results' [a|e|]]; by apply rewrites_only_pure.
Qed.

(** X7.  Store names being single path components: a transaction on
    one store, in either mode, with a block that works on the mapping
    only (whatever it does to the mapping and however it ends), leaves
    alone what [get_data] returns for every store, that one included,
    and what [ls_stores] lists, and it does not read the clock. *)
Theorem transaction_keeps_sequences {A} (name : string) (write : bool)
    (body : pyobj → pyobj * outcome A) (w : world) (other : string) :
  component name = true → component other = true →
  let w' := (open_results name write body w).1 in
  (get_data other w').2 = (get_data other w).2
  ∧ ls_stores (fs w') = ls_stores (fs w)
  ∧ ticks w' = ticks w.
Proof.
  intros _ _ w'. destruct (open_results_effect name write body w) as (g & Hfs & Hk & Hg).
  fold w' in Hfs, Hk. split; [|split; [|done]].
  - rewrite !get_data_run. simpl. rewrite Hfs.
    destruct (decide (other = name)) as [->|Hne].
    + pose proof (stat_update_dir_prefix (data_dir ++ [name]) [] g (fs w)) as Hp.
      rewrite app_nil_r in Hp. rewrite Hp.
      destruct (stat (data_dir ++ [name]) (fs w)) as [[c|es]|e|]; simpl; try done.
      by rewrite Hg.
    + by rewrite (stat_update_dir_sibling data_dir name [] g other []).
  - unfold ls_stores, os_scandir. rewrite Hfs, stat_update_dir_prefix.
    destruct (stat data_dir (fs w)) as [[c|es]|e|]; simpl; try done.
    rewrite dir_names_alter; [done|]. intros n. by destruct n.
Qed.

End Transactions.

(** ** Creating, listing and dropping stores *)

Section Lifecycle.
Import FS Store Loading.
Context `{Platform}.

Lemma path_mkdir_fresh q x t pes :
  stat q t = Return (Dir pes) → assoc x pes = None →
  path_mkdir (q ++ [x]) t
  = Return (update_dir q (λ es, es ++ [(x, Dir [])]) t).
Proof. intros Hq Hx. unfold path_mkdir. by rewrite split_last_snoc, Hq, Hx. Qed.

Lemma dir_names_app es1 es2 :
  dir_names (es1 ++ es2) = dir_names es1 ++ dir_names es2.
Proof. unfold dir_names. by rewrite filter_app, fmap_app. Qed.

(** [ls_stores] names [name] exactly when an entry of the data directory
    with that name is a directory. *)
Lemma elem_of_dir_names name es :
  name ∈ dir_names es ↔ ∃ sub, (name, Dir sub) ∈ es.
Proof.
  unfold dir_names. rewrite list_elem_of_fmap. split.
  - intros ([y n] & -> & [Hd Hin]%list_elem_of_filter). simpl in *.
    destruct n as [c|sub]; [done|]. eauto.
  - intros [sub Hin]. exists (name, Dir sub). split; [done|].
    by apply list_elem_of_filter.
Qed.

(** What a store made under a free name leaves behind. *)
Lemma init_store_fresh_run name t pes k fuel overwrite :
  stat data_dir t = Return (Dir pes) → assoc (slugify name) pes = None →
  init_store fuel (Some name) overwrite (mkWorld t k)
  = (mkWorld (update_dir data_dir (λ es, es ++ [(slugify name, Dir [])]) t) k,
     Return (slugify name, data_dir ++ [slugify name])).
Proof.
  intros Hq Hx. unfold init_store, mbind, M_bind, mret, M_ret, try_except.
  by rewrite (fs_write_run _ _ _ _ (path_mkdir_fresh _ _ _ _ Hq Hx)).
Qed.

Lemma fresh_store_facts x t pes :
  stat data_dir t = Return (Dir pes) →
  let t' := update_dir data_dir (λ es, es ++ [(x, Dir [])]) t in
  (assoc x pes = None → stat (data_dir ++ [x]) t' = Return (Dir []))
  ∧ x ∈ (ls_stores t').1
  ∧ (∀ y r, y ≠ x → stat (data_dir ++ y :: r) t' = stat (data_dir ++ y :: r) t).
Proof.
  intros Hq t'.
  assert (Hq' : stat data_dir t' = Return (Dir (pes ++ [(x, Dir [])])))
    by apply (stat_update_dir _ (λ es, es ++ [(x, Dir [])]) _ _ Hq).
  split; [|split].
  - intros Hx. by rewrite (stat_child _ _ _ _ Hq'), assoc_app_new.
  - rewrite (ls_stores_listing _ _ Hq'). simpl. apply elem_of_app. left.
    rewrite dir_names_app. apply elem_of_app. right.
    apply elem_of_dir_names. exists []. by apply list_elem_of_singleton.
  - intros y r Hy. rewrite !stat_app, Hq, Hq'. simpl. by rewrite assoc_app_ne.
Qed.

(** X8.  [init_store] on a name whose slug is one path component that
    no entry of the data directory has: whatever [overwrite] says, it
    returns the slug and its path, the store's directory is there and
    empty, [ls_stores] lists it, and what lies beside it is as before. *)
Theorem init_store_fresh (name : string) (t : node)
    (pes : list (string * node)) (k fuel : nat) (overwrite : bool) :
  component (slugify name) = true →
  stat data_dir t = Return (Dir pes) → assoc (slugify name) pes = None →
  ∃ t',
    init_store fuel (Some name) overwrite (mkWorld t k)
    = (mkWorld t' k, Return (slugify name, data_dir ++ [slugify name]))
    ∧ stat (data_dir ++ [slugify name]) t' = Return (Dir [])
    ∧ slugify name ∈ (ls_stores t').1
    ∧ (∀ y r, y ≠ slugify name →
         stat (data_dir ++ y :: r) t' = stat (data_dir ++ y :: r) t).
Proof.
  intros _ Hq Hx. eexists.
  split; [by apply init_store_fresh_run with (pes := pes)|].
  destruct (fresh_store_facts (slugify name) t pes Hq) as (H1 & H2 & H3).
  auto.
Qed.

Lemma gen_contains_free t es name :
  stat data_dir t = Return (Dir es) → name ∉ dir_names es →
  gen_contains name (ls_stores t) = Return false.
Proof.
  intros Ht Hin. rewrite (ls_stores_listing _ _ Ht). unfold gen_contains. simpl.
  rewrite bool_decide_eq_false_2; [done|].
  by intros [?|?]%elem_of_app.
Qed.

(** Name synthesis settles on the first candidate that is not the name
    of a store, after as many clock readings as it took. *)
Lemma synthesize_name_first_free attempts :
  ∀ t es k j,
    stat data_dir t = Return (Dir es) → (j < attempts)%nat →
    (∀ i, (i < j)%nat → strftime (clock (k + i)) ∈ dir_names es) →
    strftime (clock (k + j)) ∉ dir_names es →
    synthesize_name attempts (mkWorld t k)
    = (mkWorld t (k + j + 1), Return (strftime (clock (k + j)))).
Proof.
  induction attempts as [|n IH]; intros t es k j Ht Hj Hbusy Hfree; [lia|].
  simpl. unfold mbind, M_bind, now, fs_read. simpl.
  destruct j as [|j].
  - rewrite Nat.add_0_r in *. rewrite (gen_contains_free t es) by done.
    simpl. unfold mret, M_ret. by replace (k + 1) with (S k) by lia.
  - rewrite (gen_contains_taken t es); [|done|].
    + simpl. unfold sleep, mret, M_ret.
      rewrite (IH t es (S k) j Ht); [| lia | |].
      * by replace (S k + j) with (k + S j) by lia.
      * intros i Hi. replace (S k + i) with (k + S i) by lia. apply Hbusy. lia.
      * by replace (S k + j) with (k + S j) by lia.
    + specialize (Hbusy 0). rewrite Nat.add_0_r in Hbusy. apply Hbusy. lia.
Qed.

(** X9.  [init_store] without a name takes the first of its (at most
    three) timestamp candidates that no entry of the data directory has:
    after [j] candidates that were names of stores it has read the clock
    [j + 1] times, and it creates and returns the store named by the
    last reading. *)
Theorem init_store_first_free_timestamp (t : node)
    (pes : list (string * node)) (k j fuel : nat) (overwrite : bool) :
  stat data_dir t = Return (Dir pes) →
  (j < UNIQUE_STORENAME_ATTEMPTS)%nat →
  (∀ i, (i < j)%nat → strftime (clock (k + i)) ∈ dir_names pes) →
  strftime (clock (k + j)) ∉ pes.*1 →
  let store_name := strftime (clock (k + j)) in
  ∃ t',
    init_store fuel None overwrite (mkWorld t k)
    = (mkWorld t' (k + j + 1), Return (store_name, data_dir ++ [store_name]))
    ∧ stat (data_dir ++ [store_name]) t' = Return (Dir [])
    ∧ store_name ∈ (ls_stores t').1
    ∧ (∀ y r, y ≠ store_name →
         stat (data_dir ++ y :: r) t' = stat (data_dir ++ y :: r) t).
Proof.
  intros Hq Hj Hbusy Hfree store_name.
  assert (Hx : assoc store_name pes = None).
  { destruct (assoc store_name pes) as [n|] eqn:E; [|done].
    destruct Hfree. apply list_elem_of_fmap. exists (store_name, n).
    split; [done|]. clear -E. induction pes as [|[z b] pes IH]; simpl in *; [done|].
    case_decide; [simplify_eq; left|right; auto]. }
  assert (Hfree' : store_name ∉ dir_names pes).
  { intros Hin. by apply dir_names_subseteq in Hin. }
  eexists. split.
  - unfold init_store.
    erewrite bind_run;
      [|by apply (synthesize_name_first_free _ t pes k j)].
    unfold mbind, M_bind, mret, M_ret, try_except.
    by rewrite (fs_write_run _ _ _ _ (path_mkdir_fresh _ _ _ _ Hq Hx)).
  - destruct (fresh_store_facts store_name t pes Hq) as (H1 & H2 & H3). auto.
Qed.

(** [rm_tree] on a path that is not a directory: [glob] gives nothing
    and [rmdir] fails with the error of the path. *)
Lemma rm_tree_not_dir fuel path t k :
  (∀ es, stat path t ≠ Return (Dir es)) →
  rm_tree (S fuel) path (mkWorld t k)
  = (mkWorld t k,
     match stat path t with
     | Raise e => Raise e
     | Return _ => Raise NotADirectoryError
     | OutOfFuel => OutOfFuel
     end).
Proof.
  intros Hnd. simpl. unfold mbind, M_bind, fs_read, path_glob. simpl.
  destruct (stat path t) as [[c|es]|e|] eqn:Hs; simpl.
  - apply fs_write_raise. unfold path_rmdir. by rewrite Hs.
  - by destruct (Hnd es).
  - apply fs_write_raise. unfold path_rmdir. by rewrite Hs.
  - unfold fs_write, path_rmdir. simpl. by rewrite Hs.
Qed.

(** X10.  [init_store] on a name whose path is a regular file: without
    [overwrite] it raises [StoreExistsError]; with [overwrite] the
    recursive delete fails on the file and [NotADirectoryError] comes
    out.  The file is still there in both cases. *)
Theorem init_store_on_regular_file (name : string) (t : node)
    (pes : list (string * node)) (c : content) (k fuel : nat) :
  stat data_dir t = Return (Dir pes) →
  assoc (slugify name) pes = Some (File c) →
  init_store fuel (Some name) false (mkWorld t k)
  = (mkWorld t k, Raise StoreExistsError)
  ∧ init_store (S fuel) (Some name) true (mkWorld t k)
    = (mkWorld t k, Raise NotADirectoryError).
Proof.
  intros Hq Hx.
  assert (Hmk : path_mkdir (data_dir ++ [slugify name]) t = Raise FileExistsError).
  { unfold path_mkdir. by rewrite split_last_snoc, Hq, Hx. }
  assert (Hs : stat (data_dir ++ [slugify name]) t = Return (File c)).
  { by rewrite (stat_child _ _ _ _ Hq), Hx. }
  split; unfold init_store, mbind, M_bind, mret, M_ret, try_except;
    rewrite (fs_write_raise _ _ _ _ Hmk); [done|].
  change (isinstance FileExistsError FileExistsError) with true. cbv iota.
  rewrite rm_tree_not_dir; [by rewrite Hs|]. intros es. by rewrite Hs.
Qed.

(** X11.  Without the data directory no store can be made: with a name
    whose slug is one path component, [init_store] raises the
    [FileNotFoundError] of [mkdir]; without a name, it raises the
    [FileNotFoundError] of [ls_stores] after one clock reading.  The file
    system is as it was. *)
Theorem init_store_without_data_dir (name : string) (t : node)
    (k fuel : nat) (overwrite : bool) :
  stat data_dir t = Raise FileNotFoundError →
  (component (slugify name) = true →
   init_store fuel (Some name) overwrite (mkWorld t k)
   = (mkWorld t k, Raise FileNotFoundError))
  ∧ init_store fuel None overwrite (mkWorld t k)
    = (mkWorld t (S k), Raise FileNotFoundError).
Proof.
  intros Hq. split.
  - intros _. assert (Hmk : path_mkdir (data_dir ++ [slugify name]) t
                  = Raise FileNotFoundError).
    { unfold path_mkdir. by rewrite split_last_snoc, Hq. }
    unfold init_store, mbind, M_bind, mret, M_ret, try_except.
    by rewrite (fs_write_raise _ _ _ _ Hmk).
  - unfold init_store. apply bind_raise. simpl.
    unfold mbind, M_bind, now, fs_read. simpl.
    by rewrite (ls_stores_no_data_dir _ Hq).
Qed.

(** X12.  [drop] on a name that is one path component and not a store
    directory deletes nothing: a missing entry raises
    [FileNotFoundError], a regular file raises [NotADirectoryError] and
    stays. *)
Theorem drop_not_a_store (name : string) (t : node) (k fuel : nat) :
  component name = true →
  (stat (data_dir ++ [name]) t = Raise FileNotFoundError →
   drop (S fuel) name (mkWorld t k) = (mkWorld t k, Raise FileNotFoundError))
  ∧ (∀ c, stat (data_dir ++ [name]) t = Return (File c) →
       drop (S fuel) name (mkWorld t k)
       = (mkWorld t k, Raise NotADirectoryError)).
Proof.
  intros _. split; [intros Hs|intros c Hs]; unfold drop;
    (rewrite rm_tree_not_dir; [by rewrite Hs|]); intros es; by rewrite Hs.
Qed.

Lemma init_store_overwrite_run name t pes es k fuel :
  stat data_dir t = Return (Dir pes) → NoDup pes.*1 →
  stat (data_dir ++ [slugify name]) t = Return (Dir es) →
  height (Dir es) < fuel →
  init_store fuel (Some name) true (mkWorld t k)
  = (mkWorld (update_dir data_dir (λ es, es ++ [(slugify name, Dir [])])
                (update_dir data_dir (remove_assoc (slugify name)) t)) k,
     Return (slugify name, data_dir ++ [slugify name])).
Proof.
  intros Hq Hnd Hx Hh.
  assert (Hin : assoc (slugify name) pes = Some (Dir es)).
  { rewrite (stat_child _ _ _ _ Hq) in Hx.
    by destruct (assoc (slugify name) pes) as [?|]; simplify_eq. }
  assert (Hmk : path_mkdir (data_dir ++ [slugify name]) t = Raise FileExistsError).
  { unfold path_mkdir. by rewrite split_last_snoc, Hq, Hin. }
  unfold init_store, mbind, M_bind, mret, M_ret, try_except.
  rewrite (fs_write_raise _ _ _ _ Hmk). simpl.
  rewrite (rm_tree_run fuel _ _ _ _ _ Hx Hh).
  erewrite fs_write_run; [done|].
  apply path_mkdir_fresh with (pes := remove_assoc (slugify name) pes).
  - by apply stat_update_dir.
  - by apply assoc_remove_NoDup.
Qed.

(** X13.  On an existing store directory, [init_store] with [overwrite]
    does what [drop] followed by [init_store] without [overwrite] does:
    the two leave the same world and return the same name and path. *)
Theorem overwrite_is_drop_then_create (name : string) (t : node)
    (pes es : list (string * node)) (k fuel fuel' : nat) :
  stat data_dir t = Return (Dir pes) → NoDup pes.*1 →
  stat (data_dir ++ [slugify name]) t = Return (Dir es) →
  height (Dir es) < fuel →
  init_store fuel (Some name) true (mkWorld t k)
  = (drop fuel (slugify name);; init_store fuel' (Some name) false) (mkWorld t k).
Proof.
  intros Hq Hnd Hx Hh.
  rewrite (init_store_overwrite_run _ _ _ _ _ _ Hq Hnd Hx Hh).
  unfold drop. erewrite bind_run; [|by apply (rm_tree_run fuel _ _ _ es)].
  symmetry. apply init_store_fresh_run with (pes := remove_assoc (slugify name) pes).
  - by apply stat_update_dir.
  - by apply assoc_remove_NoDup.
Qed.

(** X14.  Once a store is dropped it is gone for every operation:
    [get_data] raises [StoreNotFoundError], a results transaction raises
    [FileNotFoundError] in either mode, and a second [drop] raises
    [FileNotFoundError]. *)
Theorem dropped_store_is_gone {A} (name : string) (t : node)
    (pes es : list (string * node)) (k fuel fuel' : nat) (write : bool)
    (body : pyobj → pyobj * outcome A) :
  stat data_dir t = Return (Dir pes) → NoDup pes.*1 →
  stat (data_dir ++ [name]) t = Return (Dir es) →
  height (Dir es) < fuel →
  ∃ w',
    drop fuel name (mkWorld t k) = (w', Return tt)
    ∧ get_data name w' = (w', Raise StoreNotFoundError)
    ∧ open_results name write body w' = (w', Raise FileNotFoundError)
    ∧ drop (S fuel') name w' = (w', Raise FileNotFoundError).
Proof.
  intros Hq Hnd Hx Hh. eexists. split; [by apply (rm_tree_run fuel _ _ _ es)|].
  set (t' := update_dir data_dir (remove_assoc name) t).
  assert (Hgone : stat (data_dir ++ [name]) t' = Raise FileNotFoundError).
  { rewrite (stat_child _ _ _ (remove_assoc name pes)).
    - by rewrite assoc_remove_NoDup.
    - by apply stat_update_dir. }
  split; [|split].
  - rewrite get_data_run. simpl. by rewrite Hgone.
  - by apply open_results_no_store.
  - unfold drop. rewrite rm_tree_not_dir; [by rewrite Hgone|].
    intros es'. by rewrite Hgone.
Qed.

Lemma NoDup_fst_agree {A} (es : list (string * A)) x a b :
  NoDup es.*1 → (x, a) ∈ es → (x, b) ∈ es → a = b.
Proof.
  induction es as [|[z n] es IH]; intros Hnd Ha Hb.
  - by apply elem_of_nil in Ha.
  - simpl in Hnd. apply NoDup_cons in Hnd as [Hz Hnd].
    apply elem_of_cons in Ha as [Ha|Ha], Hb as [Hb|Hb].
    + congruence.
    + exfalso. apply Hz. injection Ha as <- _.
      apply list_elem_of_fmap. by exists (x, b).
    + exfalso. apply Hz. injection Hb as <- _.
      apply list_elem_of_fmap. by exists (x, a).
    + by apply IH.
Qed.

(** X15.  With the data directory there, [ls_stores] names exactly the
    entries of the data directory that are directories: a regular file
    in the data directory is never listed as a store. *)
Theorem ls_stores_lists_directories (t : node) (es : list (string * node))
    (name : string) :
  stat data_dir t = Return (Dir es) →
  (name ∈ (ls_stores t).1 ↔ ∃ sub, (name, Dir sub) ∈ es)
  ∧ (∀ c, NoDup es.*1 → (name, File c) ∈ es → name ∉ (ls_stores t).1).
Proof.
  intros Hq. rewrite (ls_stores_listing _ _ Hq). simpl.
  assert (Hiff : name ∈ dir_names es ++ dir_names es ↔ ∃ sub, (name, Dir sub) ∈ es).
  { rewrite elem_of_app, elem_of_dir_names. tauto. }
  split; [done|]. intros c Hnd Hc. rewrite Hiff. intros [sub Hsub].
  by pose proof (NoDup_fst_agree _ _ _ _ Hnd Hc Hsub).
Qed.

(** X16.  What else [get_data] raises: a sequence file of zero bytes
    gives the [EOFError] of [pickle.load], a store path that is a regular
    file gives [NotADirectoryError], a sequence entry that is a directory
    gives [IsADirectoryError]; none of these becomes [DataNotFoundError]
    or [StoreNotFoundError]. *)
Theorem get_data_other_errors (store_name : string) (w : world) :
  (∀ es, stat (data_dir ++ [store_name]) (fs w) = Return (Dir es) →
     assoc PROFILED_DATA_FNAME es = Some (File None) →
     get_data store_name w = (w, Raise EOFError))
  ∧ (∀ c, stat (data_dir ++ [store_name]) (fs w) = Return (File c) →
       get_data store_name w = (w, Raise NotADirectoryError))
  ∧ (∀ es sub, stat (data_dir ++ [store_name]) (fs w) = Return (Dir es) →
       assoc PROFILED_DATA_FNAME es = Some (Dir sub) →
       get_data store_name w = (w, Raise IsADirectoryError)).
Proof.
  rewrite get_data_run. split; [|split].
  - by intros es -> ->.
  - by intros c ->.
  - by intros es sub -> ->.
Qed.

End Lifecycle.

(** ** Loading data *)

Section LoadData.
Import FS Store Loading.
Context `{Platform}.

(** The tail of [load_data]: once [init_store] has returned an empty
    store, the renamed series is pickled into it and [get_data] returns
    it. *)
Lemma load_data_run fuel col name overwrite t k t1 k1 x :
  init_store fuel name overwrite (mkWorld t k)
  = (mkWorld t1 k1, Return (x, data_dir ++ [x])) →
  stat (data_dir ++ [x]) t1 = Return (Dir []) →
  ∃ t2,
    load_data fuel [col] name overwrite (mkWorld t k)
    = (mkWorld t2 k1, inr (Return tt))
    ∧ stat (data_dir ++ [x]) t2
      = Return (Dir [(PROFILED_DATA_FNAME, File (Some (Series x col)))])
    ∧ get_data x (mkWorld t2 k1) = (mkWorld t2 k1, Return (Series x col))
    ∧ (∀ y r, y ≠ x → stat (data_dir ++ y :: r) t2 = stat (data_dir ++ y :: r) t1).
Proof.
  intros Hinit Hs.
  set (sp := data_dir ++ [x]) in *.
  set (t1' := update_dir sp (λ es, es ++ [(PROFILED_DATA_FNAME, File None)]) t1).
  set (put := λ n : node, match n with
                          | File _ => File (Some (Series x col))
                          | Dir es => Dir es
                          end).
  set (t2 := update_dir sp (alter_assoc PROFILED_DATA_FNAME put) t1').
  assert (Hw : open_wb (sp ++ [PROFILED_DATA_FNAME]) t1 = Return t1').
  { unfold open_wb. by rewrite split_last_snoc, Hs. }
  assert (Hwp : write_pickle (sp ++ [PROFILED_DATA_FNAME]) (Series x col) t1'
                = Return t2).
  { unfold write_pickle. by rewrite split_last_snoc. }
  assert (Hs1 : stat sp t1' = Return (Dir [(PROFILED_DATA_FNAME, File None)])).
  { by apply (stat_update_dir _ (λ es, es ++ [(PROFILED_DATA_FNAME, File None)])
                _ _ Hs). }
  assert (Hs2 : stat sp t2
                = Return (Dir [(PROFILED_DATA_FNAME, File (Some (Series x col)))])).
  { by apply (stat_update_dir _ (alter_assoc PROFILED_DATA_FNAME put) _ _ Hs1). }
  exists t2. split; [|split; [done|split]].
  - unfold load_data. simpl.
    unfold mbind, M_bind. rewrite Hinit. simpl. fold sp.
    by rewrite (fs_write_run _ _ _ _ Hw), (fs_write_run _ _ _ _ Hwp).
  - rewrite get_data_run. simpl. fold sp. by rewrite Hs2.
  - intros y r Hy. unfold t2, t1', sp.
    rewrite (stat_update_dir_sibling data_dir x [] _ y r) by done.
    by rewrite (stat_update_dir_sibling data_dir x [] _ y r).
Qed.

(** X17.  [load_data] of a one-column frame under a free name whose slug
    is one path component, then [get_data] on the store it made: the
    series comes back with the column's values in order and the store's
    name as its label; the new store holds the sequence file and nothing
    else, and the other stores are as before. *)
Theorem load_data_then_get_data (name : string) (col : list Z) (t : node)
    (pes : list (string * node)) (k fuel : nat) (overwrite : bool) :
  component (slugify name) = true →
  stat data_dir t = Return (Dir pes) → assoc (slugify name) pes = None →
  ∃ t',
    load_data fuel [col] (Some name) overwrite (mkWorld t k)
    = (mkWorld t' k, inr (Return tt))
    ∧ get_data (slugify name) (mkWorld t' k)
      = (mkWorld t' k, Return (Series (slugify name) col))
    ∧ stat (data_dir ++ [slugify name]) t'
      = Return (Dir [(PROFILED_DATA_FNAME,
                      File (Some (Series (slugify name) col)))])
    ∧ (∀ y r, y ≠ slugify name →
         stat (data_dir ++ y :: r) t' = stat (data_dir ++ y :: r) t).
Proof.
  intros _ Hq Hx.
  destruct (fresh_store_facts (slugify name) t pes Hq) as (H1 & _ & H3).
  destruct (load_data_run fuel col (Some name) overwrite t k _ k (slugify name)
              (init_store_fresh_run _ _ _ _ fuel overwrite Hq Hx) (H1 Hx))
    as (t2 & Hrun & Hs2 & Hget & Hsib).
  exists t2. repeat split; try done.
  intros y r Hy. rewrite Hsib by done. by apply H3.
Qed.

(** X18.  [load_data] with [overwrite] on a store that exists replaces
    the store: afterwards its directory holds the new sequence file and
    nothing else (the results filed before are gone), [get_data] returns
    the new series, and the other stores are as before. *)
Theorem load_data_overwrite_replaces (name : string) (col : list Z) (t : node)
    (pes es : list (string * node)) (k fuel : nat) :
  stat data_dir t = Return (Dir pes) → NoDup pes.*1 →
  stat (data_dir ++ [slugify name]) t = Return (Dir es) →
  height (Dir es) < fuel →
  ∃ t',
    load_data fuel [col] (Some name) true (mkWorld t k)
    = (mkWorld t' k, inr (Return tt))
    ∧ get_data (slugify name) (mkWorld t' k)
      = (mkWorld t' k, Return (Series (slugify name) col))
    ∧ stat (data_dir ++ [slugify name]) t'
      = Return (Dir [(PROFILED_DATA_FNAME,
                      File (Some (Series (slugify name) col)))])
    ∧ (∀ y r, y ≠ slugify name →
         stat (data_dir ++ y :: r) t' = stat (data_dir ++ y :: r) t).
Proof.
  intros Hq Hnd Hx Hh.
  set (t0 := update_dir data_dir (remove_assoc (slugify name)) t).
  assert (Hq0 : stat data_dir t0
                = Return (Dir (remove_assoc (slugify name) pes)))
    by by apply stat_update_dir.
  assert (Hx0 : assoc (slugify name) (remove_assoc (slugify name) pes) = None)
    by by apply assoc_remove_NoDup.
  destruct (fresh_store_facts (slugify name) t0 _ Hq0) as (H1 & _ & H3).
  destruct (load_data_run fuel col (Some name) true t k _ k (slugify name)
              (init_store_overwrite_run _ _ _ _ _ _ Hq Hnd Hx Hh) (H1 Hx0))
    as (t2 & Hrun & Hs2 & Hget & Hsib).
  exists t2. repeat split; try done.
  intros y r Hy. rewrite Hsib, H3 by done.
  by apply stat_sibling_after_remove.
Qed.

(** X19.  When [load_data] refuses, nothing is touched: a frame with
    more than one column gives [MultipleColumnsError] before any store
    is made, and a name whose store directory exists gives, without
    [overwrite], [StoreExistsError] with the store's sequence as it
    was. *)
Theorem load_data_refusals (name : string) (col : list Z) (w : world)
    (es : list (string * node)) (fuel : nat) :
  stat (data_dir ++ [slugify name]) (fs w) = Return (Dir es) →
  (∀ df name' overwrite, (1 < length df)%nat →
     load_data fuel df name' overwrite w = (w, inl MultipleColumnsError))
  ∧ load_data fuel [col] (Some name) false w = (w, inr (Raise StoreExistsError)).
Proof.
  intros Hx. split.
  - intros df name' overwrite Hlen. unfold load_data.
    by rewrite bool_decide_eq_true_2.
  - destruct w as [t k]. simpl in Hx.
    destruct (stat data_dir t) as [[c|pes]|e|] eqn:Hq;
      try (by rewrite stat_app, Hq in Hx).
    assert (Hin : assoc (slugify name) pes = Some (Dir es)).
    { rewrite (stat_child _ _ _ _ Hq) in Hx.
      by destruct (assoc (slugify name) pes) as [?|]; simplify_eq. }
    assert (Hmk : path_mkdir (data_dir ++ [slugify name]) t
                  = Raise FileExistsError).
    { unfold path_mkdir. by rewrite split_last_snoc, Hq, Hin. }
    unfold load_data. simpl.
    unfold init_store, mbind, M_bind, mret, M_ret, try_except.
    by rewrite (fs_write_raise _ _ _ _ Hmk).
Qed.

End LoadData.

(** ** More on the cached views *)

Section CachedViewsMore.
Import Result Views.

Lemma cache_find_length {V} h self (c : cache V) k v rest :
  cache_find h self c = Some (k, v, rest) → length c = S (length rest).
Proof.
  revert k v rest. induction c as [|[k0 v0] c IH]; intros k v rest; simpl; [done|].
  destruct (key_matches h self k0); [by intros [= _ _ <-]|].
  destruct (cache_find h self c) as [[[k1 v1] rest1]|] eqn:E; [|done].
  intros [= _ _ <-]. simpl. f_equal. by eapply IH.
Qed.

Lemma lru_call_bounded {V} (f : items → outcome V) h self (c : cache V) :
  (length c ≤ maxsize)%nat → (length (lru_call f h self c).1 ≤ maxsize)%nat.
Proof.
  intros Hc. unfold lru_call.
  destruct (cache_find h self c) as [[[k v] rest]|] eqn:E; simpl.
  - apply cache_find_length in E. rewrite length_app. simpl.
    unfold maxsize in *. lia.
  - destruct (f (contents h self)) as [v|e|]; simpl; try done.
    rewrite length_app. simpl. unfold maxsize in *.
    case_decide as Hfull; [|lia]. destruct c; simpl in *; lia.
Qed.

(** X20.  The caches never grow past [maxsize = 128] entries: if each
    of the three caches holds at most 128 entries, it still does after
    any access of [statistics], [pvalues] or [min] on any instance and
    after any insertion. *)
Theorem caches_stay_bounded (s : pystate) (self : addr) (k : feature)
    (r : TestResult) :
  caches_bounded s →
  caches_bounded (statistics self s).1
  ∧ caches_bounded (pvalues self s).1
  ∧ caches_bounded (Result.min self s).1
  ∧ caches_bounded (setitem_obj self k r s).
Proof.
  intros (Hs & Hp & Hm). unfold caches_bounded, statistics, pvalues, Result.min.
  pose proof (lru_call_bounded statistics_body (objects s) self _ Hs).
  pose proof (lru_call_bounded pvalues_body (objects s) self _ Hp).
  pose proof (lru_call_bounded min_body (objects s) self _ Hm).
  destruct (lru_call statistics_body _ _ _), (lru_call pvalues_body _ _ _),
    (lru_call min_body _ _ _). simpl in *. tauto.
Qed.

(** X21.  An access that raises is not cached.  [min] on an empty
    instance that matches no cached key raises [StopIteration] and leaves
    the interpreter as it was; once an item is inserted, the next [min]
    computes afresh and returns that item. *)
Theorem failed_min_is_not_cached (s : pystate) (self : addr) (k : feature)
    (r : TestResult) :
  objects s !! self = Some [] →
  unmatched (objects s) self (min_cache s) →
  unmatched (objects (setitem_obj self k r s)) self (min_cache s) →
  Result.min self s = (s, Raise StopIteration)
  ∧ (Result.min self (setitem_obj self k r (Result.min self s).1)).2
    = Return (k, r).
Proof.
  intros Hd Hu Hu'.
  assert (H1 : Result.min self s = (s, Raise StopIteration)).
  { unfold Result.min, lru_call, contents.
    rewrite (cache_find_unmatched _ _ _ Hu), Hd. by destruct s. }
  split; [done|]. rewrite H1. simpl.
  unfold Result.min. simpl.
  rewrite (lru_call_miss min_body _ _ _ (k, r)); [done|done|].
  unfold contents. rewrite lookup_insert_eq. simpl.
  unfold contents. by rewrite Hd.
Qed.

Lemma getitem_elem_of d k v :
  NoDup d.*1 → (k, v) ∈ d → getitem k d = Some v.
Proof.
  induction d as [|[k' v'] d IH]; intros Hnd Hin; [by apply elem_of_nil in Hin|].
  simpl in *. apply NoDup_cons in Hnd as [Hk Hnd].
  case_decide as Hkk.
  - apply elem_of_cons in Hin as [[= _ ->]|Hin]; [done|].
    destruct Hk. subst k'. apply list_elem_of_fmap. by exists (k, v).
  - apply elem_of_cons in Hin as [[= -> _]|Hin]; [done|]. by apply IH.
Qed.

(** A dict equals itself. *)
Lemma dict_eq_refl d : NoDup d.*1 → dict_eq d d = true.
Proof.
  intros Hnd. unfold dict_eq. rewrite bool_decide_eq_true_2 by done. simpl.
  apply forallb_forall. intros [k v] Hin. simpl.
  apply list_elem_of_In in Hin. rewrite (getitem_elem_of _ _ _ Hnd Hin).
  by apply bool_decide_eq_true_2.
Qed.

(** A stored key of an equal object is a hit. *)
Lemma lru_call_shared {V} (f : items → outcome V) h self other c v :
  unmatched h self c → key_matches h self other = true →
  lru_call f h self (c ++ [(other, v)]) = (c ++ [(other, v)], Return v).
Proof.
  intros Hc Hm. unfold lru_call.
  assert (cache_find h self (c ++ [(other, v)]) = Some (other, v, c)) as ->; [|done].
  induction Hc as [|[k w] c Hk _ IH]; simpl in *; [by rewrite Hm|].
  by rewrite Hk, IH.
Qed.

(** X22.  Instances with equal contents share cache entries, so an
    out-of-date view can reach an instance that was never read.  Read
    [pvalues] on [a] (holding [d], nothing cached for it), then insert
    into [a]; a different instance [b] that holds what [a] now holds and
    matches no other cached key then gets, on its first read, the list
    computed from [d].  With a new key inserted, that list is shorter
    than [b]'s own. *)
Theorem stale_view_reaches_equal_instance (s : pystate) (a b : addr)
    (d : items) (k : feature) (r : TestResult) :
  a ≠ b →
  objects s !! a = Some d → NoDup d.*1 → getitem k d = None →
  objects s !! b = Some (setitem k r d) →
  unmatched (objects s) a (pvalues_cache s) →
  unmatched (objects (setitem_obj a k r s)) b (pvalues_cache s) →
  let s1 := (pvalues a s).1 in
  let s2 := setitem_obj a k r s1 in
  (pvalues b s2).2 = pvalues_body d
  ∧ pvalues_body (contents (objects s2) b) = pvalues_body (setitem k r d)
  ∧ pvalues_body (setitem k r d) ≠ pvalues_body d.
Proof.
  intros Hab Ha Hnd Hk Hb Hua Hub s1 s2.
  assert (Hca : contents (objects s) a = d) by (unfold contents; by rewrite Ha).
  set (h' := <[a := setitem k r d]> (objects s)).
  set (c' := (if decide (maxsize ≤ length (pvalues_cache s))%nat
              then tail (pvalues_cache s) else pvalues_cache s)).
  assert (Hs2 : s2 = mkPystate h' (statistics_cache s)
                       (c' ++ [(a, map (λ kv, p kv.2) d)]) (min_cache s)).
  { unfold s2, s1, pvalues.
    rewrite (lru_call_miss pvalues_body _ _ _ (map (λ kv, p kv.2) d) Hua)
      by by rewrite Hca.
    unfold setitem_obj. simpl. by rewrite Hca. }
  assert (Hh' : objects (setitem_obj a k r s) = h').
  { unfold setitem_obj. simpl. by rewrite Hca. }
  rewrite Hh' in Hub.
  assert (Hcb : contents h' b = setitem k r d).
  { unfold contents, h'. by rewrite lookup_insert_ne, Hb. }
  assert (Hca2 : contents h' a = setitem k r d).
  { unfold contents, h'. by rewrite lookup_insert_eq. }
  assert (Hnd' : NoDup (setitem k r d).*1).
  { clear -Hnd Hk. induction d as [|[k' v'] d IH]; simpl in *.
    - apply NoDup_singleton.
    - case_decide as Hkk; [done|]. simpl. apply NoDup_cons in Hnd as [Hk' Hnd].
      apply NoDup_cons. split; [|by apply IH].
      intros Hin. apply Hk'. clear -Hin Hkk.
      induction d as [|[k0 v0] d IH]; simpl in *.
      + apply list_elem_of_singleton in Hin. congruence.
      + case_decide; simpl in *.
        * apply elem_of_cons in Hin as [->|Hin]; [congruence|]. by right.
        * apply elem_of_cons in Hin as [->|Hin]; [by left|]. right. auto. }
  rewrite Hs2. simpl. split; [|split].
  - unfold pvalues. simpl. rewrite lru_call_shared; [done| |].
    + unfold c'. case_decide; [by apply unmatched_tail|done].
    + unfold key_matches. apply orb_true_iff. right.
      rewrite Hcb, Hca2. by apply dict_eq_refl.
  - by rewrite Hcb.
  - unfold pvalues_body. intros [= Heq]. apply (f_equal length) in Heq.
    rewrite !length_map, (length_setitem_new _ _ _ Hk) in Heq. lia.
Qed.

End CachedViewsMore.

(** ** Text helpers *)

Section TextFacts.
Import Text.

Lemma append_cons c s1 s2 : String c s1 +:+ s2 = String c (s1 +:+ s2).
Proof. reflexivity. Qed.

Lemma append_nil s : "" +:+ s = s.
Proof. reflexivity. Qed.

Lemma length_append s1 s2 :
  String.length (s1 +:+ s2) = String.length s1 + String.length s2.
Proof.
  induction s1 as [|c s1 IH]; [done|].
  rewrite append_cons. simpl. by rewrite IH.
Qed.

Lemma length_spaces n : String.length (spaces n) = n.
Proof. induction n as [|n IH]; simpl; [done|]. by rewrite IH. Qed.

Lemma append_empty s : s +:+ "" = s.
Proof.
  induction s as [|c s IH]; [done|]. by rewrite append_cons, IH.
Qed.

(** X23.  [pad_right] never cuts: the result starts with the string, is
    as long as the longer of the string and [maxlen], and is the string
    itself when that is already [maxlen] long or longer. *)
Theorem pad_right_length (string : string) (maxlen : nat) :
  String.length (pad_right string maxlen)
  = Nat.max (String.length string) maxlen
  ∧ String.prefix string (pad_right string maxlen) = true
  ∧ ((maxlen ≤ String.length string)%nat → pad_right string maxlen = string).
Proof.
  unfold pad_right. split; [|split].
  - rewrite length_append, length_spaces. lia.
  - generalize (spaces (maxlen - String.length string)). intros pad.
    induction string as [|c s IH].
    + by destruct pad.
    + rewrite append_cons. simpl.
      destruct (Ascii.ascii_dec c c); [|done]. apply IH.
  - intros Hlen. replace (maxlen - String.length string) with 0 by lia.
    apply append_empty.
Qed.

Lemma find_dot_spaces n s :
  find_dot (spaces n +:+ s) = (λ pos, n + pos) <$> find_dot s.
Proof.
  induction n as [|n IH].
  - rewrite append_nil. by destruct (find_dot s).
  - change (spaces (S n)) with (String " "%char (spaces n)).
    rewrite append_cons. simpl. rewrite IH. by destruct (find_dot s).
Qed.

(** Padding on the left moves the dot, or the end, by the padding. *)
Lemma dot_position_spaces n s :
  dot_position (spaces n +:+ s) = n + dot_position s.
Proof.
  unfold dot_position. rewrite find_dot_spaces.
  destruct (find_dot s); simpl; [done|].
  by rewrite length_append, length_spaces.
Qed.

Lemma foldl_max_le x xs : (x ≤ foldl Nat.max x xs)%nat.
Proof.
  revert x. induction xs as [|y xs IH]; intros x; simpl; [done|].
  etrans; [|apply IH]. lia.
Qed.

Lemma py_max_upper xs m : py_max xs = inr m → ∀ x, x ∈ xs → (x ≤ m)%nat.
Proof.
  destruct xs as [|x0 xs]; [done|]. intros [= <-]. simpl.
  revert x0. induction xs as [|y xs IH]; intros x0 x Hx; simpl.
  - by apply list_elem_of_singleton in Hx as ->.
  - apply elem_of_cons in Hx as [->|Hx].
    + etrans; [|apply foldl_max_le]. lia.
    + apply elem_of_cons in Hx as [->|Hx].
      * etrans; [|apply foldl_max_le]. lia.
      * apply IH. by right.
Qed.

Lemma py_max_elem_of xs m : py_max xs = inr m → m ∈ xs.
Proof.
  destruct xs as [|x0 xs]; [done|]. intros [= <-]. simpl.
  revert x0. induction xs as [|y xs IH]; intros x0; simpl; [by left|].
  destruct (Nat.max_spec x0 y) as [[_ ->]|[_ ->]].
  - right. apply IH.
  - specialize (IH x0). apply elem_of_cons in IH as [->|IH]; [by left|].
    by do 2 right.
Qed.

Section AlignFacts.
Context {num : Type} (render : num → string).

(** X24.  [align_nums] on an empty list raises the [ValueError] of
    [max]; on any other list it returns one string per number, each the
    number's rendering behind spaces only, with the decimal points (the
    ends, for renderings without one) all at the same position, and at
    least one rendering not padded at all. *)
Theorem align_nums_aligns (nums : list num) :
  match align_nums render nums with
  | inl ValueError => nums = []
  | inr f_aligned =>
      nums ≠ []
      ∧ length f_aligned = length nums
      ∧ (∀ i f_num, f_aligned !! i = Some f_num →
           ∃ n pad, nums !! i = Some n ∧ f_num = spaces pad +:+ render n)
      ∧ (∀ f1 f2, f1 ∈ f_aligned → f2 ∈ f_aligned →
           dot_position f1 = dot_position f2)
      ∧ (∃ n, n ∈ nums ∧ render n ∈ f_aligned)
  end.
Proof.
  unfold align_nums.
  destruct (py_max (map dot_position (map render nums))) as [[]|maxpos] eqn:Hmax.
  { by destruct nums. }
  pose proof (py_max_upper _ _ Hmax) as Hup.
  pose proof (py_max_elem_of _ _ Hmax) as Hin.
  set (out := map _ (zip _ _)).
  assert (Hout : ∀ i f_num, out !! i = Some f_num →
            ∃ n, nums !! i = Some n
                 ∧ f_num = spaces (maxpos - dot_position (render n)) +:+ render n).
  { intros i f_num Hi. unfold out in Hi.
    rewrite list_lookup_fmap in Hi.
    destruct (zip _ _ !! i) as [[f pos]|] eqn:Hz; [|done].
    apply lookup_zip_with_Some in Hz as (f' & pos' & [= <- <-] & Hf & Hp).
    rewrite !list_lookup_fmap in Hp. rewrite list_lookup_fmap in Hf.
    destruct (nums !! i) as [n|]; [|done]. simpl in *.
    exists n. by simplify_eq. }
  assert (Hpos : ∀ f, f ∈ out → dot_position f = maxpos).
  { intros f (i & Hi)%list_elem_of_lookup.
    destruct (Hout i f Hi) as (n & Hn & ->).
    rewrite dot_position_spaces.
    assert (dot_position (render n) ≤ maxpos)%nat; [|lia].
    apply Hup. apply list_elem_of_fmap. exists (render n). split; [done|].
    apply list_elem_of_fmap. exists n. split; [done|].
    by eapply list_elem_of_lookup_2. }
  split; [by destruct nums|]. split; [|split; [|split]].
  - unfold out. by rewrite length_map, length_zip, !length_map, Nat.min_id.
  - intros i f_num Hi. destruct (Hout i f_num Hi) as (n & Hn & ->). eauto.
  - intros f1 f2 H1 H2. by rewrite !Hpos.
  - apply list_elem_of_fmap in Hin as (f & Hf & Hin).
    apply list_elem_of_fmap in Hin as (n & -> & Hn).
    exists n. split; [done|].
    apply list_elem_of_lookup in Hn as [i Hi].
    apply list_elem_of_lookup. exists i. unfold out.
    rewrite list_lookup_fmap.
    assert (zip (map render nums) (map dot_position (map render nums)) !! i
            = Some (render n, dot_position (render n))) as ->.
    { apply lookup_zip_with_Some. eexists _, _. split; [done|].
      by rewrite !list_lookup_fmap, Hi. }
    simpl. by rewrite <- Hf, Nat.sub_diag.
Qed.

End AlignFacts.

End TextFacts.

(** ** The test strategy's filter *)

Section StrategyFacts.
Import Strategies.

Lemma differs_from_true firstval rest :
  differs_from firstval rest = true ↔ ∃ val, val ∈ rest ∧ val ≠ firstval.
Proof.
  induction rest as [|v rest IH]; simpl.
  - split; [done|]. intros (val & Hin & _). by apply elem_of_nil in Hin.
  - case_bool_decide as Hv.
    + split; [|done]. intros _. exists v. split; [by left|done].
    + rewrite IH. split.
      * intros (val & Hin & Hne). exists val. split; [by right|done].
      * intros (val & [->|Hin]%elem_of_cons & Hne); [done|]. eauto.
Qed.

(** X25.  [contains_multiple_values] raises [IndexError] exactly on the
    empty list; otherwise it returns whether two of the values differ.
    On a list of bits that is whether both 0 and 1 occur. *)
Theorem contains_multiple_values_spec (array : list Z) :
  match contains_multiple_values array with
  | None => array = []
  | Some b =>
      array ≠ []
      ∧ (b = true ↔ ∃ x y, x ∈ array ∧ y ∈ array ∧ x ≠ y)
      ∧ ((∀ x, x ∈ array → x = 0 ∨ x = 1)%Z →
         (b = true ↔ 0%Z ∈ array ∧ 1%Z ∈ array))
  end.
Proof.
  destruct array as [|firstval rest]; [done|]. simpl.
  assert (Hiff : differs_from firstval rest = true
                 ↔ ∃ x y, x ∈ firstval :: rest ∧ y ∈ firstval :: rest ∧ x ≠ y).
  { rewrite differs_from_true. split.
    - intros (val & Hin & Hne). exists val, firstval.
      split; [by right|]. split; [by left|done].
    - intros (x & y & Hx & Hy & Hxy).
      apply elem_of_cons in Hx as [->|Hx], Hy as [->|Hy]; try done.
      + exists y. split; [done|]. congruence.
      + exists x. split; [done|]. done.
      + destruct (decide (x = firstval)) as [->|Hne].
        * exists y. split; [done|]. congruence.
        * by exists x. }
  split; [done|]. split; [done|].
  intros Hbits. rewrite Hiff. split.
  - intros (x & y & Hx & Hy & Hxy).
    destruct (Hbits x Hx) as [->| ->], (Hbits y Hy) as [->| ->]; try done.
  - intros [H0 H1]. by exists 0%Z, 1%Z.
Qed.

End StrategyFacts.

(** ** The further properties on sample stores and instances *)

Section MoreSamples.
Import FS Store Loading Result Views Text Strategies.
#[local] Existing Instance sample_platform.

Lemma write_then_read_witness :
  ∃ t',
    open_results "demo" true (file_results [monobit_result]) (mkWorld sample_fs 0)
    = (mkWorld t' 0, Return tt)
    ∧ stat (data_dir ++ ["demo"; RESULTS_FNAME]) t'
      = Return (File (Some (Dict [("runs_test", Single r_05);
                                  ("MonobitTestResult", Single r_02)])))
    ∧ read_results "demo" (mkWorld t' 0)
      = (mkWorld t' 0,
         Return (Dict [("runs_test", Single r_05);
                       ("MonobitTestResult", Single r_02)])).
Proof.
  assert (Hs : stat (data_dir ++ ["demo"]) sample_fs
               = Return (Dir [("series.pickle", File (Some sample_series));
                              ("results.pickle", File (Some sample_results))]))
    by reflexivity.
  assert (Hnd : ∀ sub,
            assoc RESULTS_FNAME
              [("series.pickle", File (Some sample_series));
               ("results.pickle", File (Some sample_results))]
            ≠ Some (Dir sub)) by (intros sub; discriminate).
  exact (write_then_read "demo" (file_results [monobit_result]) sample_fs 0 _
           (Dict [("runs_test", Single r_05); ("MonobitTestResult", Single r_02)])
           tt Hs Hnd eq_refl).
Defined.

Lemma read_transaction_yields_witness :
  read_results "demo" (mkWorld sample_fs 0)
  = (mkWorld sample_fs 0, Return sample_results)
  ∧ ∀ A (body : pyobj → pyobj * outcome A),
      open_results "demo" false body (mkWorld sample_fs 0)
      = (mkWorld sample_fs 0, (body sample_results).2).
Proof.
  assert (Hs : stat (data_dir ++ ["demo"]) (fs (mkWorld sample_fs 0))
               = Return (Dir [("series.pickle", File (Some sample_series));
                              ("results.pickle", File (Some sample_results))]))
    by reflexivity.
  exact (read_transaction_yields "demo" (mkWorld sample_fs 0) _
           (Some sample_results) Hs eq_refl).
Defined.

Lemma transaction_without_store_witness :
  open_results "ghost" true failing_block (mkWorld sample_fs 0)
  = (mkWorld sample_fs 0, Raise FileNotFoundError).
Proof.
  assert (Hs : stat (data_dir ++ ["ghost"]) (fs (mkWorld sample_fs 0))
               = Raise FileNotFoundError) by reflexivity.
  assert (Hc : component "ghost" = true) by reflexivity.
  exact (transaction_without_store "ghost" true failing_block
           (mkWorld sample_fs 0) Hc Hs).
Defined.

Lemma transaction_keeps_sequences_witness :
  let w' := (open_results "demo" true (file_results [monobit_result])
               (mkWorld sample_fs 0)).1 in
  fs w' ≠ sample_fs
  ∧ (get_data "demo" w').2 = Return sample_series
  ∧ ls_stores (fs w') = ls_stores sample_fs
  ∧ ticks w' = 0.
Proof.
  assert (Hc : component "demo" = true) by reflexivity.
  pose proof (transaction_keeps_sequences "demo" true
                (file_results [monobit_result]) (mkWorld sample_fs 0) "demo"
                Hc Hc) as (Hget & Hls & Hk).
  split; [by vm_compute|]. split; [|split].
  - etrans; [exact Hget|]. reflexivity.
  - exact Hls.
  - exact Hk.
Defined.

Lemma load_results_files_by_class_witness :
  ∃ t' d',
    load_results "demo" [monobit_result; runs_result] (mkWorld sample_fs 0)
    = (mkWorld t' 0, Return tt)
    ∧ read_results "demo" (mkWorld t' 0) = (mkWorld t' 0, Return (Dict d'))
    ∧ (∀ rs1 r rs2, [monobit_result; runs_result] = rs1 ++ r :: rs2 →
         (∀ r', r' ∈ rs2 → class_name r' ≠ class_name r) →
         assoc (class_name r) d' = Some (pickled r))
    ∧ (∀ r, r ∈ [monobit_result; runs_result] →
         ∃ r', r' ∈ [monobit_result; runs_result]
               ∧ class_name r' = class_name r
               ∧ assoc (class_name r) d' = Some (pickled r'))
    ∧ (∀ key, (∀ r, r ∈ [monobit_result; runs_result] → class_name r ≠ key) →
         assoc key d' = assoc key [("runs_test", Single r_05)]).
Proof.
  assert (Hs : stat (data_dir ++ ["demo"]) sample_fs
               = Return (Dir [("series.pickle", File (Some sample_series));
                              ("results.pickle", File (Some sample_results))]))
    by reflexivity.
  assert (Hnd : ∀ sub,
            assoc RESULTS_FNAME
              [("series.pickle", File (Some sample_series));
               ("results.pickle", File (Some sample_results))]
            ≠ Some (Dir sub)) by (intros sub; discriminate).
  exact (load_results_files_by_class "demo" [monobit_result; runs_result]
           sample_fs 0 _ [("runs_test", Single r_05)] Hs Hnd eq_refl).
Defined.

Lemma load_results_in_steps_witness :
  (∀ r w, load_result "demo" r w = load_results "demo" [r] w)
  ∧ (load_results "demo" [monobit_result];; load_results "demo" [runs_result])
      (mkWorld bare_fs 0)
    = load_results "demo" ([monobit_result] ++ [runs_result]) (mkWorld bare_fs 0).
Proof.
  assert (Hs : stat (data_dir ++ ["demo"]) bare_fs = Return (Dir []))
    by reflexivity.
  assert (Hnd : ∀ sub, assoc RESULTS_FNAME ([] : list (string * node))
                       ≠ Some (Dir sub)) by (intros sub; discriminate).
  exact (load_results_in_steps "demo" [monobit_result] [runs_result]
           bare_fs 0 [] [] Hs Hnd eq_refl).
Defined.

Lemma init_store_fresh_witness :
  ∃ t',
    init_store 0 (Some "fresh") false (mkWorld sample_fs 0)
    = (mkWorld t' 0, Return ("fresh", data_dir ++ ["fresh"]))
    ∧ stat (data_dir ++ ["fresh"]) t' = Return (Dir [])
    ∧ "fresh" ∈ (ls_stores t').1
    ∧ (∀ y r, y ≠ "fresh" →
         stat (data_dir ++ y :: r) t' = stat (data_dir ++ y :: r) sample_fs).
Proof.
  assert (Hq : stat data_dir sample_fs
               = Return (Dir [("demo", sample_store); ("other", nested_store);
                              ("notes.txt", File None)])) by reflexivity.
  assert (Hc : component (slugify "fresh") = true) by reflexivity.
  exact (init_store_fresh "fresh" sample_fs _ 0 0 false Hc Hq eq_refl).
Defined.

Lemma init_store_first_free_timestamp_witness :
  ∃ t',
    init_store 0 None false (mkWorld busy_fs 0)
    = (mkWorld t' 3,
       Return ("20200101T000003Z", data_dir ++ ["20200101T000003Z"]))
    ∧ stat (data_dir ++ ["20200101T000003Z"]) t' = Return (Dir [])
    ∧ "20200101T000003Z" ∈ (ls_stores t').1
    ∧ (∀ y r, y ≠ "20200101T000003Z" →
         stat (data_dir ++ y :: r) t' = stat (data_dir ++ y :: r) busy_fs).
Proof.
  assert (Hq : stat data_dir busy_fs
               = Return (Dir [("20200101T000000Z", Dir []);
                              ("20200101T000001Z", Dir [])])) by reflexivity.
  assert (Hj : (2 < UNIQUE_STORENAME_ATTEMPTS)%nat) by (vm_compute; lia).
  assert (Hbusy : ∀ i, (i < 2)%nat →
            strftime (clock (0 + i))
            ∈ dir_names [("20200101T000000Z", Dir []);
                         ("20200101T000001Z", Dir [])]).
  { intros i Hi. destruct i as [|[|i]]; [compute_done|compute_done|lia]. }
  assert (Hfree : strftime (clock (0 + 2))
                  ∉ [("20200101T000000Z", Dir []);
                     ("20200101T000001Z", Dir [])].*1) by compute_done.
  exact (init_store_first_free_timestamp busy_fs _ 0 2 0 false
           Hq Hj Hbusy Hfree).
Defined.

Lemma init_store_on_regular_file_witness :
  init_store 0 (Some "notes.txt") false (mkWorld sample_fs 0)
  = (mkWorld sample_fs 0, Raise StoreExistsError)
  ∧ init_store 1 (Some "notes.txt") true (mkWorld sample_fs 0)
    = (mkWorld sample_fs 0, Raise NotADirectoryError).
Proof.
  assert (Hq : stat data_dir sample_fs
               = Return (Dir [("demo", sample_store); ("other", nested_store);
                              ("notes.txt", File None)])) by reflexivity.
  exact (init_store_on_regular_file "notes.txt" sample_fs _ None 0 0 Hq eq_refl).
Defined.

Lemma init_store_without_data_dir_witness :
  init_store 0 (Some "demo") false (mkWorld no_data_dir_fs 0)
  = (mkWorld no_data_dir_fs 0, Raise FileNotFoundError)
  ∧ init_store 0 None false (mkWorld no_data_dir_fs 0)
    = (mkWorld no_data_dir_fs 1, Raise FileNotFoundError).
Proof.
  assert (Hq : stat data_dir no_data_dir_fs = Raise FileNotFoundError)
    by reflexivity.
  assert (Hc : component (slugify "demo") = true) by reflexivity.
  destruct (init_store_without_data_dir "demo" no_data_dir_fs 0 0 false Hq)
    as [Hnamed Hunnamed].
  exact (conj (Hnamed Hc) Hunnamed).
Defined.

Lemma drop_not_a_store_witness :
  drop 1 "ghost" (mkWorld sample_fs 0)
  = (mkWorld sample_fs 0, Raise FileNotFoundError)
  ∧ drop 1 "notes.txt" (mkWorld sample_fs 0)
    = (mkWorld sample_fs 0, Raise NotADirectoryError).
Proof.
  assert (Hg : stat (data_dir ++ ["ghost"]) sample_fs = Raise FileNotFoundError)
    by reflexivity.
  assert (Hn : stat (data_dir ++ ["notes.txt"]) sample_fs = Return (File None))
    by reflexivity.
  assert (Hcg : component "ghost" = true) by reflexivity.
  assert (Hcn : component "notes.txt" = true) by reflexivity.
  split.
  - exact (proj1 (drop_not_a_store "ghost" sample_fs 0 0 Hcg) Hg).
  - exact (proj2 (drop_not_a_store "notes.txt" sample_fs 0 0 Hcn) None Hn).
Defined.

Lemma overwrite_is_drop_then_create_witness :
  init_store 5 (Some "other") true (mkWorld sample_fs 0)
  = (drop 5 "other";; init_store 0 (Some "other") false) (mkWorld sample_fs 0).
Proof.
  assert (Hq : stat data_dir sample_fs
               = Return (Dir [("demo", sample_store); ("other", nested_store);
                              ("notes.txt", File None)])) by reflexivity.
  assert (Hnd : NoDup ([("demo", sample_store); ("other", nested_store);
                        ("notes.txt", File None)].*1)) by compute_done.
  assert (Hx : stat (data_dir ++ ["other"]) sample_fs
               = Return (Dir [("series.pickle", File (Some sample_series));
                              ("plots", Dir [("a.png", File None);
                                             ("old", Dir [("b.png", File None);
                                                          ("deep", Dir [])])]);
                              ("results.pickle", File None)])) by reflexivity.
  assert (Hh : height nested_store < 5) by (vm_compute; lia).
  exact (overwrite_is_drop_then_create "other" sample_fs _ _ 0 5 0 Hq Hnd Hx Hh).
Defined.

Lemma dropped_store_is_gone_witness :
  ∃ w',
    drop 5 "other" (mkWorld sample_fs 0) = (w', Return tt)
    ∧ get_data "other" w' = (w', Raise StoreNotFoundError)
    ∧ open_results "other" true failing_block w' = (w', Raise FileNotFoundError)
    ∧ drop 1 "other" w' = (w', Raise FileNotFoundError).
Proof.
  assert (Hq : stat data_dir sample_fs
               = Return (Dir [("demo", sample_store); ("other", nested_store);
                              ("notes.txt", File None)])) by reflexivity.
  assert (Hnd : NoDup ([("demo", sample_store); ("other", nested_store);
                        ("notes.txt", File None)].*1)) by compute_done.
  assert (Hx : stat (data_dir ++ ["other"]) sample_fs
               = Return (Dir [("series.pickle", File (Some sample_series));
                              ("plots", Dir [("a.png", File None);
                                             ("old", Dir [("b.png", File None);
                                                          ("deep", Dir [])])]);
                              ("results.pickle", File None)])) by reflexivity.
  assert (Hh : height nested_store < 5) by (vm_compute; lia).
  exact (dropped_store_is_gone "other" sample_fs _ _ 0 5 0 true failing_block
           Hq Hnd Hx Hh).
Defined.

Lemma ls_stores_lists_directories_witness :
  ("notes.txt" ∈ (ls_stores sample_fs).1
   ↔ ∃ sub, ("notes.txt", Dir sub)
            ∈ [("demo", sample_store); ("other", nested_store);
               ("notes.txt", File None)])
  ∧ "notes.txt" ∉ (ls_stores sample_fs).1.
Proof.
  assert (Hq : stat data_dir sample_fs
               = Return (Dir [("demo", sample_store); ("other", nested_store);
                              ("notes.txt", File None)])) by reflexivity.
  assert (Hnd : NoDup ([("demo", sample_store); ("other", nested_store);
                        ("notes.txt", File None)].*1)) by compute_done.
  destruct (ls_stores_lists_directories sample_fs _ "notes.txt" Hq) as [H1 H2].
  split; [exact H1|]. apply (H2 None Hnd). do 2 right. left.
Defined.

Lemma get_data_other_errors_witness :
  get_data "cut" (mkWorld damaged_fs 0) = (mkWorld damaged_fs 0, Raise EOFError)
  ∧ get_data "notes.txt" (mkWorld sample_fs 0)
    = (mkWorld sample_fs 0, Raise NotADirectoryError)
  ∧ get_data "odd" (mkWorld damaged_fs 0)
    = (mkWorld damaged_fs 0, Raise IsADirectoryError).
Proof.
  split; [|split].
  - refine (proj1 (get_data_other_errors "cut" (mkWorld damaged_fs 0))
              [("series.pickle", File None)] _ _); reflexivity.
  - refine (proj1 (proj2 (get_data_other_errors "notes.txt" (mkWorld sample_fs 0)))
              None _); reflexivity.
  - refine (proj2 (proj2 (get_data_other_errors "odd" (mkWorld damaged_fs 0)))
              [("series.pickle", Dir [])] [] _ _); reflexivity.
Defined.

Lemma load_data_then_get_data_witness :
  ∃ t',
    load_data 0 [[0; 1; 1; 0; 1]%Z] (Some "coin") false (mkWorld sample_fs 0)
    = (mkWorld t' 0, inr (Return tt))
    ∧ get_data "coin" (mkWorld t' 0)
      = (mkWorld t' 0, Return (Series "coin" [0; 1; 1; 0; 1]%Z))
    ∧ stat (data_dir ++ ["coin"]) t'
      = Return (Dir [(PROFILED_DATA_FNAME,
                      File (Some (Series "coin" [0; 1; 1; 0; 1]%Z)))])
    ∧ (∀ y r, y ≠ "coin" →
         stat (data_dir ++ y :: r) t' = stat (data_dir ++ y :: r) sample_fs).
Proof.
  assert (Hq : stat data_dir sample_fs
               = Return (Dir [("demo", sample_store); ("other", nested_store);
                              ("notes.txt", File None)])) by reflexivity.
  assert (Hc : component (slugify "coin") = true) by reflexivity.
  exact (load_data_then_get_data "coin" [0; 1; 1; 0; 1]%Z sample_fs _ 0 0 false
           Hc Hq eq_refl).
Defined.

Lemma load_data_overwrite_replaces_witness :
  ∃ t',
    load_data 2 [[1; 0]%Z] (Some "demo") true (mkWorld sample_fs 0)
    = (mkWorld t' 0, inr (Return tt))
    ∧ get_data "demo" (mkWorld t' 0)
      = (mkWorld t' 0, Return (Series "demo" [1; 0]%Z))
    ∧ stat (data_dir ++ ["demo"]) t'
      = Return (Dir [(PROFILED_DATA_FNAME,
                      File (Some (Series "demo" [1; 0]%Z)))])
    ∧ (∀ y r, y ≠ "demo" →
         stat (data_dir ++ y :: r) t' = stat (data_dir ++ y :: r) sample_fs).
Proof.
  assert (Hq : stat data_dir sample_fs
               = Return (Dir [("demo", sample_store); ("other", nested_store);
                              ("notes.txt", File None)])) by reflexivity.
  assert (Hnd : NoDup ([("demo", sample_store); ("other", nested_store);
                        ("notes.txt", File None)].*1)) by compute_done.
  assert (Hx : stat (data_dir ++ ["demo"]) sample_fs
               = Return (Dir [("series.pickle", File (Some sample_series));
                              ("results.pickle", File (Some sample_results))]))
    by reflexivity.
  assert (Hh : height sample_store < 2) by (vm_compute; lia).
  exact (load_data_overwrite_replaces "demo" [1; 0]%Z sample_fs _ _ 0 2
           Hq Hnd Hx Hh).
Defined.

Lemma load_data_refusals_witness :
  (∀ df name' overwrite, (1 < length df)%nat →
     load_data 0 df name' overwrite (mkWorld sample_fs 0)
     = (mkWorld sample_fs 0, inl MultipleColumnsError))
  ∧ load_data 0 [[1; 0]%Z] (Some "demo") false (mkWorld sample_fs 0)
    = (mkWorld sample_fs 0, inr (Raise StoreExistsError)).
Proof.
  assert (Hx : stat (data_dir ++ ["demo"]) (fs (mkWorld sample_fs 0))
               = Return (Dir [("series.pickle", File (Some sample_series));
                              ("results.pickle", File (Some sample_results))]))
    by reflexivity.
  exact (load_data_refusals "demo" [1; 0]%Z (mkWorld sample_fs 0) _ 0 Hx).
Defined.

Lemma caches_stay_bounded_witness :
  caches_bounded (statistics 0 sample_state).1
  ∧ caches_bounded (pvalues 0 sample_state).1
  ∧ caches_bounded (Result.min 0 sample_state).1
  ∧ caches_bounded (setitem_obj 0 2%Z r_02 sample_state).
Proof.
  assert (Hb : caches_bounded sample_state)
    by (repeat split; vm_compute; lia).
  exact (caches_stay_bounded sample_state 0 2%Z r_02 Hb).
Defined.

Lemma failed_min_is_not_cached_witness :
  Result.min 0 (fresh 0 []) = (fresh 0 [], Raise StopIteration)
  ∧ (Result.min 0 (setitem_obj 0 2%Z r_02 (Result.min 0 (fresh 0 [])).1)).2
    = Return (2%Z, r_02).
Proof.
  assert (Hd : objects (fresh 0 []) !! 0 = Some []) by reflexivity.
  assert (Hu : unmatched (objects (fresh 0 [])) 0 (min_cache (fresh 0 [])))
    by constructor.
  assert (Hu' : unmatched (objects (setitem_obj 0 2%Z r_02 (fresh 0 []))) 0
                  (min_cache (fresh 0 []))) by constructor.
  exact (failed_min_is_not_cached (fresh 0 []) 0 2%Z r_02 Hd Hu Hu').
Defined.

Lemma stale_view_reaches_equal_instance_witness :
  let s1 := (pvalues 0 two_instances).1 in
  let s2 := setitem_obj 0 2%Z r_02 s1 in
  (pvalues 1 s2).2 = pvalues_body [(1%Z, r_05)]
  ∧ pvalues_body (contents (objects s2) 1)
    = pvalues_body (setitem 2%Z r_02 [(1%Z, r_05)])
  ∧ pvalues_body (setitem 2%Z r_02 [(1%Z, r_05)]) ≠ pvalues_body [(1%Z, r_05)].
Proof.
  assert (Hab : 0 ≠ 1) by discriminate.
  assert (Ha : objects two_instances !! 0 = Some [(1%Z, r_05)]) by reflexivity.
  assert (Hnd : NoDup ([(1%Z, r_05)].*1)) by compute_done.
  assert (Hb : objects two_instances !! 1
               = Some (setitem 2%Z r_02 [(1%Z, r_05)])) by reflexivity.
  assert (Hua : unmatched (objects two_instances) 0 (pvalues_cache two_instances))
    by constructor.
  assert (Hub : unmatched (objects (setitem_obj 0 2%Z r_02 two_instances)) 1
                  (pvalues_cache two_instances)) by constructor.
  exact (stale_view_reaches_equal_instance two_instances 0 1 [(1%Z, r_05)]
           2%Z r_02 Hab Ha Hnd eq_refl Hb Hua Hub).
Defined.

Lemma pad_right_length_witness :
  String.length (pad_right "statistic" 4) = Nat.max 9 4
  ∧ String.prefix "statistic" (pad_right "statistic" 4) = true
  ∧ pad_right "statistic" 4 = "statistic".
Proof.
  destruct (pad_right_length "statistic" 4) as (H1 & H2 & H3).
  split; [exact H1|]. split; [exact H2|]. apply H3. vm_compute. lia.
Defined.

Lemma align_nums_aligns_witness :
  match align_nums (λ f_num : string, f_num) ["3.142"; "10"; "0.5"] with
  | inl ValueError => ["3.142"; "10"; "0.5"] = []
  | inr f_aligned =>
      ["3.142"; "10"; "0.5"] ≠ []
      ∧ length f_aligned = length ["3.142"; "10"; "0.5"]
      ∧ (∀ i f_num, f_aligned !! i = Some f_num →
           ∃ n pad, ["3.142"; "10"; "0.5"] !! i = Some n
                    ∧ f_num = spaces pad +:+ n)
      ∧ (∀ f1 f2, f1 ∈ f_aligned → f2 ∈ f_aligned →
           dot_position f1 = dot_position f2)
      ∧ (∃ n, n ∈ ["3.142"; "10"; "0.5"] ∧ n ∈ f_aligned)
  end.
Proof.
  exact (align_nums_aligns (λ f_num : string, f_num) ["3.142"; "10"; "0.5"]).
Defined.

Example align_nums_sample :
  align_nums (λ f_num : string, f_num) ["3.142"; "10"; "0.5"]
  = inr [" 3.142"; "10"; " 0.5"].
Proof. reflexivity. Qed.

Lemma contains_multiple_values_spec_witness :
  contains_multiple_values [0; 0; 1]%Z = Some true
  ∧ (true = true ↔ 0%Z ∈ [0; 0; 1]%Z ∧ 1%Z ∈ [0; 0; 1]%Z).
Proof.
  pose proof (contains_multiple_values_spec [0; 0; 1]%Z) as Hspec.
  change (contains_multiple_values [0; 0; 1]%Z) with (Some true) in Hspec.
  destruct Hspec as (_ & _ & Hbits). split; [reflexivity|]. apply Hbits.
  intros x Hx.
  repeat (apply elem_of_cons in Hx as [->|Hx]; [auto|]).
  by apply elem_of_nil in Hx.
Defined.

End MoreSamples.

(** ** Making the data directory *)

Section StartupFacts.
Import FS Store Startup.
Context `{Platform}.

Lemma stat_raise q t e :
  stat q t = Raise e → e = FileNotFoundError ∨ e = NotADirectoryError.
Proof.
  revert t. induction q as [|x q IH]; intros [c|es]; simpl; try done.
  - intros [= <-]. by right.
  - destruct (assoc x es) as [n|]; [apply IH|]. intros [= <-]. by left.
Qed.

Lemma stat_not_out_of_fuel q t : stat q t ≠ OutOfFuel.
Proof.
  revert t. induction q as [|x q IH]; intros [c|es]; simpl; try done.
  destruct (assoc x es) as [n|]; [apply IH|done].
Qed.

(** [NotADirectoryError] means that a regular file is in the way. *)
Lemma stat_not_a_directory q t :
  stat q t = Raise NotADirectoryError →
  ∃ q' c, q' `prefix_of` q ∧ stat q' t = Return (File c).
Proof.
  revert t. induction q as [|x q IH]; intros [c|es]; simpl; try done.
  - intros _. exists [], c. split; [apply prefix_nil|done].
  - destruct (assoc x es) as [n|] eqn:E; [|done]. intros Hn.
    destruct (IH n Hn) as (q' & c & Hpre & Hq').
    exists (x :: q'), c. split; [by apply prefix_cons|]. simpl. by rewrite E.
Qed.

Lemma same_kind_refl o : same_kind o o.
Proof. destruct o as [[c|es]|e|]; simpl; eauto. Qed.

Lemma assoc_app_Some {A} y (m : A) es es' :
  assoc y es = Some m → assoc y (es ++ es') = Some m.
Proof.
  induction es as [|[z b] es IH]; simpl; [done|]. case_decide; [done|apply IH].
Qed.

(** A new last entry in some directory leaves every file what it was and
    every directory a directory. *)
Lemma append_entry_same_kind q x n :
  ∀ t p, same_kind (stat p t)
           (stat p (update_dir q (λ es, es ++ [(x, n)]) t)).
Proof.
  induction q as [|z q IH]; intros [c|es] p; simpl; try apply same_kind_refl.
  - destruct p as [|y p]; simpl; [eauto|].
    destruct (assoc y es) as [m|] eqn:E; [|done].
    rewrite (assoc_app_Some _ _ _ _ E). apply same_kind_refl.
  - destruct p as [|y p]; simpl; [eauto|].
    destruct (decide (z = y)) as [->|Hne].
    + rewrite assoc_alter. destruct (assoc y es) as [m|]; simpl; [apply IH|done].
    + rewrite assoc_alter_ne by done. apply same_kind_refl.
Qed.

Lemma same_kind_trans o1 o2 o3 :
  same_kind o1 o2 → same_kind o2 o3 → same_kind o1 o3.
Proof.
  destruct o1 as [[c|es]|e|]; simpl; try done.
  - by intros ->.
  - by intros [es' ->].
Qed.

(** [mkdir(parents=True)] on a missing path with no regular file in the
    way: the path and its missing ancestors are made, the path is an
    empty directory, and what was there keeps its kind. *)
Lemma mkdir_parents_creates fuel :
  ∀ path exist_ok t,
    (length path ≤ fuel)%nat →
    (∀ q c, q `prefix_of` path → stat q t ≠ Return (File c)) →
    path_exists path t = false →
    ∃ t', mkdir_parents fuel path exist_ok t = Return t'
          ∧ stat path t' = Return (Dir [])
          ∧ ∀ p, same_kind (stat p t) (stat p t').
Proof.
  induction fuel as [|fuel IH]; intros path exist_ok t Hlen Hfile Hmiss.
  - destruct path; [|simpl in Hlen; lia]. by destruct t.
  - destruct path as [|x q _] using rev_ind; [by destruct t|].
    rewrite length_app in Hlen. simpl in Hlen.
    assert (Hq : ∀ q' c, q' `prefix_of` q → stat q' t ≠ Return (File c)).
    { intros q' c Hpre. apply Hfile. by apply prefix_app_r. }
    assert (Hmk : ∀ t0 es0, stat q t0 = Return (Dir es0) → assoc x es0 = None →
              path_mkdir (q ++ [x]) t0
              = Return (update_dir q (λ es, es ++ [(x, Dir [])]) t0)
              ∧ stat (q ++ [x])
                  (update_dir q (λ es, es ++ [(x, Dir [])]) t0)
                = Return (Dir [])).
    { intros t0 es0 Hs0 Hx0. split.
      - unfold path_mkdir. by rewrite split_last_snoc, Hs0, Hx0.
      - rewrite (stat_child _ _ _ (es0 ++ [(x, Dir [])])).
        + by rewrite assoc_app_new.
        + by apply (stat_update_dir _ (λ es, es ++ [(x, Dir [])])). }
    destruct (stat q t) as [[c|es]|e|] eqn:Hs.
    + by destruct (Hq q c).
    + assert (Hx : assoc x es = None).
      { unfold path_exists in Hmiss. rewrite (stat_child _ _ _ _ Hs) in Hmiss.
        by destruct (assoc x es). }
      destruct (Hmk t es Hs Hx) as [Hrun Hnew].
      eexists. simpl. rewrite Hrun. split; [done|]. split; [done|].
      intros p. apply append_entry_same_kind.
    + destruct (stat_raise _ _ _ Hs) as [-> | ->].
      2: { destruct (stat_not_a_directory _ _ Hs) as (q' & c & Hpre & Hq').
           by destruct (Hq q' c). }
      assert (Hfail : path_mkdir (q ++ [x]) t = Raise FileNotFoundError).
      { unfold path_mkdir. by rewrite split_last_snoc, Hs. }
      destruct (IH q true t) as (t1 & Hrun1 & Hs1 & Hkind1); [lia|done| |].
      { unfold path_exists. by rewrite Hs. }
      destruct (Hmk t1 [] Hs1 eq_refl) as [Hrun2 Hnew].
      eexists. simpl. rewrite Hfail. simpl.
      rewrite split_last_snoc, Hrun1. unfold mkdir_exist_ok. rewrite Hrun2.
      split; [done|]. split; [done|].
      intros p. eapply same_kind_trans; [apply Hkind1|].
      apply append_entry_same_kind.
    + by destruct (stat_not_out_of_fuel q t).
Qed.

(** What exists cannot be made again. *)
Lemma path_mkdir_exists path t :
  path_exists path t = true → path_mkdir path t = Raise FileExistsError.
Proof.
  unfold path_exists, path_mkdir.
  destruct path as [|x q _] using rev_ind; [done|].
  rewrite split_last_snoc, stat_app.
  destruct (stat q t) as [[c|es]|e|]; simpl; try done.
  by destruct (assoc x es).
Qed.

(** X26.  Loading the module makes the data directory and harms
    nothing.  If something is at the data directory's path already,
    the world is left as it is and no exception comes out.  If the path
    is missing and no regular file is in its way, it is made, with the
    ancestors that were missing: it is then an empty directory,
    [ls_stores] runs to its end and lists nothing, every file that was
    there is the same file and every directory is still a directory. *)
Theorem create_data_dir_ensures (w : world) (fuel : nat) :
  (path_exists data_dir (fs w) = true → create_data_dir fuel w = (w, Return tt))
  ∧ (path_exists data_dir (fs w) = false →
     (∀ q c, q `prefix_of` data_dir → stat q (fs w) ≠ Return (File c)) →
     (length data_dir ≤ fuel)%nat →
     ∃ t',
       create_data_dir fuel w = (mkWorld t' (ticks w), Return tt)
       ∧ stat data_dir t' = Return (Dir [])
       ∧ ls_stores t' = ([], Return tt)
       ∧ (∀ p c, stat p (fs w) = Return (File c) → stat p t' = Return (File c))
       ∧ (∀ p es, stat p (fs w) = Return (Dir es) → path_is_dir p t' = true)).
Proof.
  destruct w as [t k]. simpl. split.
  - intros Hex. unfold create_data_dir, try_except, fs_write. simpl.
    assert (mkdir_parents fuel data_dir false t = Raise FileExistsError) as ->;
      [|done].
    destruct fuel; simpl; by rewrite (path_mkdir_exists _ _ Hex).
  - intros Hmiss Hfile Hlen.
    destruct (mkdir_parents_creates fuel data_dir false t Hlen Hfile Hmiss)
      as (t' & Hrun & Hs & Hkind).
    exists t'. split; [|split; [done|split; [|split]]].
    + unfold create_data_dir, try_except. by rewrite (fs_write_run _ _ _ _ Hrun).
    + by rewrite (ls_stores_listing _ _ Hs).
    + intros p c Hp. specialize (Hkind p). by rewrite Hp in Hkind.
    + intros p es Hp. specialize (Hkind p). rewrite Hp in Hkind.
      destruct Hkind as [es' Hes']. unfold path_is_dir. by rewrite Hes'.
Qed.

End StartupFacts.

Section StartupSamples.
Import FS Store Startup.
#[local] Existing Instance sample_platform.

Lemma create_data_dir_ensures_witness :
  create_data_dir 0 (mkWorld sample_fs 0) = (mkWorld sample_fs 0, Return tt)
  ∧ ∃ t',
      create_data_dir 2 (mkWorld (Dir [("etc", Dir [("motd", File None)])]) 0)
      = (mkWorld t' 0, Return tt)
      ∧ stat data_dir t' = Return (Dir [])
      ∧ ls_stores t' = ([], Return tt)
      ∧ stat ["etc"; "motd"] t' = Return (File None).
Proof.
  split.
  - assert (Hex : path_exists data_dir (fs (mkWorld sample_fs 0)) = true)
      by reflexivity.
    exact (proj1 (create_data_dir_ensures (mkWorld sample_fs 0) 0) Hex).
  - assert (Hfile : ∀ q c, q `prefix_of` data_dir →
              stat q (fs (mkWorld (Dir [("etc", Dir [("motd", File None)])]) 0))
              ≠ Return (File c)).
    { intros q c Hpre.
      destruct q as [|a [|b [|z q]]].
      - discriminate.
      - destruct (decide (a = "home")) as [->|Hne]; [discriminate|].
        apply prefix_cons_inv_1 in Hpre. done.
      - apply prefix_cons_inv_1 in Hpre as Ha. subst a. discriminate.
      - apply prefix_length in Hpre. simpl in Hpre. lia. }
    assert (Hlen : (length data_dir ≤ 2)%nat) by (vm_compute; lia).
    assert (Hmiss : path_exists data_dir
              (fs (mkWorld (Dir [("etc", Dir [("motd", File None)])]) 0))
            = false) by reflexivity.
    destruct (proj2 (create_data_dir_ensures
                       (mkWorld (Dir [("etc", Dir [("motd", File None)])]) 0) 2)
                Hmiss Hfile Hlen) as (t' & Hrun & Hs & Hls & Hf & _).
    exists t'. repeat split; try assumption. by apply Hf.
Defined.

End StartupSamples.
